(** * JARVIS core: secure command execution and task planning

    A shallow embedding of [jarvis/core/system.py] (class [SystemCore]) and
    [jarvis/core/planner.py] (class [TaskManager]), followed by the
    properties of the specification that concern them.

    Conventions of the embedding:
    - a Python [str] is a [string], a sequence of 8-bit characters (every
      character the code tests for is an ASCII one); a [dict] with string
      keys that is used as a map is a [gmap string _]; a [set] of strings is
      a [gset string];
    - an object with mutable attributes is a record that every method takes
      and returns (explicit state passing);
    - a call that may raise returns an [exc]; [try]/[except] is a [match];
    - what the operating system, the clock and the language model answer is
      an argument of the method that asks (an oracle);
    - calls to [self.logger] have no effect on any value a method reads or
      returns and are left out;
    - the steps of a task are held by value: a [TaskStep] object is taken
      to stand at one position of one task's list and nowhere else, as the
      ownership rule of the specification has it. *)

From Stdlib Require Import Ascii String ZArith.
From stdpp Require Import base option list strings gmap pretty.

Local Open Scope string_scope.
Local Open Scope list_scope.
Local Open Scope stdpp_scope.

(** ** Exceptions *)

Inductive exn : Type :=
  | SecurityViolation (msg : string)   (* class SecurityViolation(Exception) *)
  | ValueError (msg : string)
  | OtherException (msg : string).     (* any other subclass of Exception *)

(** [str(e)] *)
Definition exn_str (e : exn) : string :=
  match e with
  | SecurityViolation m | ValueError m | OtherException m => m
  end.

Inductive exc (A : Type) : Type :=
  | Ok (a : A)
  | Raise (e : exn).
Arguments Ok {A} a.
Arguments Raise {A} e.

Definition exc_bind {A B} (m : exc A) (k : A -> exc B) : exc B :=
  match m with
  | Ok a => k a
  | Raise e => Raise e
  end.

Notation "'try!' x <- m ; k" := (exc_bind m (fun x => k))
  (at level 10, x name, m at level 100, k at level 200).

(** ** Library functions the code calls *)

(** [shlex.split(s)]: a [shlex] lexer over [s] with [posix=True],
    [whitespace_split=True], no comment characters and no punctuation
    characters, read to exhaustion. *)
Module Shlex.

Definition dquote : ascii := ascii_of_nat 34.
Definition squote : ascii := ascii_of_nat 39.
Definition backslash : ascii := ascii_of_nat 92.

Definition in_chars (c : ascii) (cs : list ascii) : bool :=
  existsb (Ascii.eqb c) cs.

(* self.whitespace: space, tab, carriage return, newline *)
Definition whitespace : list ascii :=
  [ascii_of_nat 32; ascii_of_nat 9; ascii_of_nat 13; ascii_of_nat 10].
(* self.quotes: the single and the double quote *)
Definition quotes : list ascii := [squote; dquote].
(* self.escape: the backslash *)
Definition escape : list ascii := [backslash].
(* self.escapedquotes: the double quote *)
Definition escapedquotes : list ascii := [dquote].

(** The lexer's [state] attribute: [None], [' '], ['a'], a quote
    character, or the escape character. *)
Inductive lexstate : Type :=
  | StEof                 (* None *)
  | StSpace               (* ' ' *)
  | StWord                (* 'a' *)
  | StQuote (q : ascii)   (* state in self.quotes *)
  | StEscape (e : ascii). (* state in self.escape *)

Record lexer : Type := Lexer {
  state : lexstate;
  token : string;
  (* locals of read_token *)
  quoted : bool;
  escapedstate : lexstate
}.

Definition push (tok : string) (c : ascii) : string := tok +:+ String c EmptyString.

Definition nonempty (s : string) : bool :=
  match s with EmptyString => false | String _ _ => true end.

Inductive control : Type :=
  | Continue (lx : lexer)
  | Break (lx : lexer).

(* if self.token or (self.posix and quoted): break  else: continue *)
Definition break_if_token (lx : lexer) : control :=
  if nonempty (token lx) || quoted lx then Break lx else Continue lx.

(** One turn of the [while True] loop of [read_token] when
    [instream.read(1)] returned the character [nextchar]. *)
Definition on_char (lx : lexer) (nextchar : ascii) : control :=
  match state lx with
  | StEof => Break (Lexer StEof "" (quoted lx) (escapedstate lx))
  | StSpace =>
      if in_chars nextchar whitespace then break_if_token lx
      else if in_chars nextchar escape then
        Continue (Lexer (StEscape nextchar) (token lx) (quoted lx) StWord)
      else if in_chars nextchar quotes then
        Continue (Lexer (StQuote nextchar) (token lx) (quoted lx) (escapedstate lx))
      else (* a word character, or any other one under whitespace_split *)
        Continue (Lexer StWord (String nextchar EmptyString) (quoted lx) (escapedstate lx))
  | StQuote q =>
      if Ascii.eqb nextchar q then
        Continue (Lexer StWord (token lx) true (escapedstate lx))
      else if in_chars nextchar escape && in_chars q escapedquotes then
        Continue (Lexer (StEscape nextchar) (token lx) true (StQuote q))
      else
        Continue (Lexer (StQuote q) (push (token lx) nextchar) true (escapedstate lx))
  | StEscape e =>
      let tok :=
        match escapedstate lx with
        | StQuote q =>
            if negb (Ascii.eqb nextchar e) && negb (Ascii.eqb nextchar q)
            then push (token lx) e else token lx
        | _ => token lx
        end in
      Continue (Lexer (escapedstate lx) (push tok nextchar) (quoted lx) (escapedstate lx))
  | StWord =>
      if in_chars nextchar whitespace then
        break_if_token (Lexer StSpace (token lx) (quoted lx) (escapedstate lx))
      else if in_chars nextchar quotes then
        Continue (Lexer (StQuote nextchar) (token lx) (quoted lx) (escapedstate lx))
      else if in_chars nextchar escape then
        Continue (Lexer (StEscape nextchar) (token lx) (quoted lx) StWord)
      else
        Continue (Lexer StWord (push (token lx) nextchar) (quoted lx) (escapedstate lx))
  end.

(** The same turn when [instream.read(1)] returned [''] (end of input):
    every state leaves the loop or raises. *)
Definition on_eof (lx : lexer) : exc lexer :=
  match state lx with
  | StEof => Ok (Lexer StEof "" (quoted lx) (escapedstate lx))
  | StSpace | StWord => Ok (Lexer StEof (token lx) (quoted lx) (escapedstate lx))
  | StQuote _ => Raise (ValueError "No closing quotation")
  | StEscape _ => Raise (ValueError "No escaped character")
  end.

(** After the loop: [result = self.token], and [None] for an empty token
    that had no quotes. *)
Definition result (lx : lexer) : option string :=
  if negb (quoted lx) && negb (nonempty (token lx)) then None else Some (token lx).

(** The lexer as the next call of [read_token] finds it. *)
Definition restart (lx : lexer) : lexer := Lexer (state lx) "" false StSpace.

(** [list(lex)]: [read_token] is called until it returns [None]; each turn
    of its loop takes one character, so the calls are followed along the
    input. Once the input is exhausted a call either raises or returns its
    token and leaves [state = None], and the call after that returns
    [None]. *)
Fixpoint tokens (lx : lexer) (input : string) (acc : list string) : exc (list string) :=
  match input with
  | String nextchar rest =>
      match on_char lx nextchar with
      | Continue lx' => tokens lx' rest acc
      | Break lx' =>
          match result lx' with
          | Some tok => tokens (restart lx') rest (acc ++ [tok])
          | None => Ok acc
          end
      end
  | EmptyString =>
      try! lx' <- on_eof lx;
      match result lx' with
      | Some tok => Ok (acc ++ [tok])
      | None => Ok acc
      end
  end.

Definition split (s : string) : exc (list string) :=
  tokens (Lexer StSpace "" false StSpace) s [].

End Shlex.

(** [pathlib.Path(s)] on a POSIX system, as far as [name] and [str] go. *)
Module Pathlib.

Definition slash : ascii := ascii_of_nat 47.

(** [s.split('/')] *)
Fixpoint split_sep (s : string) (cur : string) : list string :=
  match s with
  | EmptyString => [cur]
  | String c rest =>
      if Ascii.eqb c slash then cur :: split_sep rest EmptyString
      else split_sep rest (cur +:+ String c EmptyString)
  end.

(** [s.lstrip('/')] *)
Fixpoint lstrip_sep (s : string) : string :=
  match s with
  | String c rest => if Ascii.eqb c slash then lstrip_sep rest else s
  | EmptyString => EmptyString
  end.

(** [sep.join(parts)] *)
Fixpoint join_sep (parts : list string) : string :=
  match parts with
  | [] => ""
  | [p] => p
  | p :: ps => p +:+ "/" +:+ join_sep ps
  end.

(** A parsed path: its root ([''], ['/'] or ['//']) and the components
    after it. *)
Record PurePath : Type := MkPath { root : string; tail : list string }.

(** [splitroot]: exactly two leading slashes are kept as the root. *)
Definition splitroot (part : string) : string * string :=
  match part with
  | String c _ =>
      if Ascii.eqb c slash then
        let stripped := lstrip_sep part in
        if Nat.eqb (String.length part - String.length stripped) 2
        then ("//", stripped) else ("/", stripped)
      else ("", part)
  | EmptyString => ("", part)
  end.

Definition keep_component (x : string) : bool :=
  negb (String.eqb x "") && negb (String.eqb x ".").

Definition Path (s : string) : PurePath :=
  let '(rt, rel) := splitroot s in
  MkPath rt (filter (fun x => Is_true (keep_component x)) (split_sep rel EmptyString)).

(** [path.name] *)
Definition name (p : PurePath) : string := List.last (tail p) "".

(** [str(path)] *)
Definition str (p : PurePath) : string :=
  if String.eqb (root p) "" then
    match tail p with
    | [] => "."
    | _ => join_sep (tail p)
    end
  else root p +:+ join_sep (tail p).

End Pathlib.

(** [re.search(pattern, s)] for patterns made of literal characters and
    character classes, which is all [_validate_command] uses. *)
Module Re.

Inductive atom : Type :=
  | Lit (c : ascii)             (* c, or \c *)
  | OneOf (cs : list ascii).    (* [...] *)

Definition atom_matches (a : atom) (c : ascii) : bool :=
  match a with
  | Lit c' => Ascii.eqb c c'
  | OneOf cs => existsb (Ascii.eqb c) cs
  end.

(** the pattern matches at the start of [s] *)
Fixpoint match_here (p : list atom) (s : string) : bool :=
  match p with
  | [] => true
  | a :: p' =>
      match s with
      | String c rest => atom_matches a c && match_here p' rest
      | EmptyString => false
      end
  end.

(** the pattern matches somewhere in [s] *)
Fixpoint search (p : list atom) (s : string) : bool :=
  match_here p s ||
  match s with
  | String _ rest => search p rest
  | EmptyString => false
  end.

End Re.

(** A slice [l[start:]] of a Python list: a negative [start] counts from
    the end, and a [start] outside the list is brought back to its nearest
    end. *)
Module Pylist.

Definition slice_start (start : Z) (len : nat) : nat :=
  if (start <? 0)%Z then Z.to_nat (Z.max 0 (start + Z.of_nat len))
  else Z.to_nat (Z.min start (Z.of_nat len)).

Definition slice_from {A : Type} (start : Z) (l : list A) : list A :=
  drop (slice_start start (length l)) l.

End Pylist.

(** ** [jarvis/core/system.py] *)

Module System.

(** The [config] dictionary, by the keys [_load_security_rules] reads;
    [None] is an absent key. *)
Module Config.
Record t : Type := Make {
  command_blocklist : option (list string);
  allowed_paths : option (list string);
  max_runtime : option Z
}.
End Config.

Definition Context : Type := gmap string string.

(** The dictionary [execute_command] returns; [None] is an absent key. *)
Module Result.
Record t : Type := Make {
  status : string;
  return_code : option Z;
  stdout : option string;
  stderr : option string;
  error : option string
}.
End Result.

(** An entry of [command_history]. *)
Module CmdRecord.
Record t : Type := Make {
  timestamp : Z;
  command : string;
  context : option Context;
  status : string;
  result : option Result.t
}.
End CmdRecord.

Record SystemCore : Type := MkSystemCore {
  config : Config.t;
  command_history : list CmdRecord.t;
  blocklist : gset string;
  allowed_paths : gset string;
  max_runtime : Z
}.

(** [__init__], with [_load_security_rules] *)
Definition __init__ (config : Config.t) : SystemCore :=
  MkSystemCore config []
    (list_to_set (default [] (Config.command_blocklist config)))
    (list_to_set (default ["/tmp"] (Config.allowed_paths config)))
    (default 300%Z (Config.max_runtime config)).

(** What the operating system is asked to do. *)
Inductive event : Type :=
  | CreateSubprocessExec (argv : list string)  (* asyncio.create_subprocess_exec(argv) *)
  | CreateSubprocessShell (cmd : string)       (* asyncio.create_subprocess_shell(cmd) *)
  | SendSignal (sig : string).                 (* process.send_signal(sig) *)

(** What it answers to [create_subprocess_exec] and to the wait for
    [process.communicate()] that follows. *)
Inductive process_behaviour : Type :=
  | SpawnRaises (msg : string)                     (* no such file, permission denied, ... *)
  | Exits (returncode : Z) (out err : string)      (* the decoded output *)
  | TimesOut                                       (* asyncio.TimeoutError *)
  | CommunicateRaises (msg : string).              (* a failure while waiting or decoding *)

Definition OS : Type := list string -> process_behaviour.

Definition dangerous_patterns : list (string * list Re.atom) :=
  [ ("[;&|]", [Re.OneOf [";"; "&"; "|"]%char]);       (* Command chaining *)
    (">[>&]", [Re.Lit ">"; Re.OneOf [">"; "&"]%char]); (* Output redirection *)
    ("<",     [Re.Lit "<"]);                           (* Input redirection *)
    ("\$\(",  [Re.Lit "$"; Re.Lit "("]);               (* Command substitution *)
    ("`",     [Re.Lit "`"]) ].                         (* Backtick substitution *)

(** [any(str(path).startswith(str(allowed)) for allowed in self.allowed_paths)] *)
Definition path_allowed (self : SystemCore) (arg : string) : bool :=
  existsb (fun allowed => String.prefix allowed (Pathlib.str (Pathlib.Path arg)))
          (elements (allowed_paths self)).

(** the loop [for arg in cmd_parts[1:]] *)
Fixpoint validate_paths (self : SystemCore) (args : list string) : exc unit :=
  match args with
  | [] => Ok tt
  | arg :: rest =>
      if String.prefix "/" arg then
        if path_allowed self arg then validate_paths self rest
        else Raise (SecurityViolation
                      ("Path not allowed: " +:+ Pathlib.str (Pathlib.Path arg)))
      else validate_paths self rest
  end.

Definition _validate_command (self : SystemCore) (command : string) : exc unit :=
  try! cmd_parts <- Shlex.split command;
  match cmd_parts with
  | [] => Raise (SecurityViolation "Empty command")
  | cmd0 :: args =>
      let base_cmd := Pathlib.name (Pathlib.Path cmd0) in
      if bool_decide (base_cmd ∈ blocklist self) then
        Raise (SecurityViolation ("Command '" +:+ base_cmd +:+ "' is blocked"))
      else
        match List.find (fun p => Re.search (snd p) command) dangerous_patterns with
        | Some p => Raise (SecurityViolation ("Dangerous pattern detected: " +:+ fst p))
        | None => validate_paths self args
        end
  end.

(** The two [except] clauses of [execute_command]. *)
Definition on_exception (e : exn) : Result.t :=
  match e with
  | SecurityViolation _ =>
      Result.Make "security_violation" None None None (Some (exn_str e))
  | _ =>
      Result.Make "error" None None None (Some (exn_str e))
  end.

(** [cmd_record.update({status, result})] on the record that was appended
    to the history: the list holds that very object, so its entry changes. *)
Definition update_record (self : SystemCore) (i : nat) (result : Result.t) : SystemCore :=
  MkSystemCore (config self)
    (alter (fun r => CmdRecord.Make (CmdRecord.timestamp r) (CmdRecord.command r)
                       (CmdRecord.context r) (Result.status result) (Some result))
           i (command_history self))
    (blocklist self) (allowed_paths self) (max_runtime self).

Definition append_record (self : SystemCore) (r : CmdRecord.t) : SystemCore :=
  MkSystemCore (config self) (command_history self ++ [r])
    (blocklist self) (allowed_paths self) (max_runtime self).

(** [execute_command(command, context)], the clock reading [now] and the
    operating system [os]; it returns the object as it leaves it, the
    requests it made to the operating system, and its result. *)
Definition execute_command (os : OS) (now : Z) (self : SystemCore)
    (command : string) (context : option Context)
  : SystemCore * list event * Result.t :=
  match _validate_command self command with
  | Raise e => (self, [], on_exception e)
  | Ok _ =>
      match Shlex.split command with
      | Raise e => (self, [], on_exception e)
      | Ok cmd_args =>
          let cmd_record := CmdRecord.Make now command context "pending" None in
          let i := length (command_history self) in
          let self1 := append_record self cmd_record in
          match os cmd_args with
          | SpawnRaises msg =>
              (self1, [CreateSubprocessExec cmd_args], on_exception (OtherException msg))
          | Exits returncode out err =>
              let result :=
                Result.Make (if Z.eqb returncode 0 then "success" else "error")
                            (Some returncode) (Some out) (Some err) None in
              (update_record self1 i result, [CreateSubprocessExec cmd_args], result)
          | TimesOut =>
              let result :=
                Result.Make "timeout" None None None
                  (Some ("Command execution timed out after "
                         +:+ pretty (max_runtime self) +:+ " seconds")) in
              (update_record self1 i result,
               [CreateSubprocessExec cmd_args; SendSignal "SIGTERM"], result)
          | CommunicateRaises msg =>
              (self1, [CreateSubprocessExec cmd_args], on_exception (OtherException msg))
          end
      end
  end.

(** [get_command_history(limit)] *)
Definition get_command_history (self : SystemCore) (limit : option Z)
  : list CmdRecord.t :=
  match limit with
  | None => command_history self
  | Some limit => Pylist.slice_from (- limit) (command_history self)
  end.

(** [clear_command_history()] *)
Definition clear_command_history (self : SystemCore) : SystemCore :=
  MkSystemCore (config self) [] (blocklist self) (allowed_paths self) (max_runtime self).

(** The dictionary [check_system_status] returns. *)
Module StatusReport.
Record t : Type := Make {
  status : string;
  cpu : string;
  memory : string;
  disk : string;
  timestamp : Z
}.
End StatusReport.

(** [check_system_status()]. The clock is read by each [execute_command]
    that records its command, and once for the report. [execute_command]
    returns a dictionary on each of its paths, so the [except] clause of
    [check_system_status], which would report an error, has nothing to
    catch. *)
Definition check_system_status (os : OS) (now_cpu now_mem now_disk now : Z)
    (self : SystemCore) : SystemCore * list event * StatusReport.t :=
  let '(self1, events1, cpu_info) :=
    execute_command os now_cpu self "top -bn1 | grep 'Cpu(s)'" None in
  let '(self2, events2, mem_info) := execute_command os now_mem self1 "free -m" None in
  let '(self3, events3, disk_info) := execute_command os now_disk self2 "df -h" None in
  (self3, events1 ++ events2 ++ events3,
   StatusReport.Make "success"
     (default "" (Result.stdout cpu_info))
     (default "" (Result.stdout mem_info))
     (default "" (Result.stdout disk_info))
     now).

End System.

(** ** [jarvis/core/planner.py] *)

Module Planner.

Definition Context : Type := gmap string string.

(** [@dataclass class TaskStep] *)
Record TaskStep : Type := MkTaskStep {
  action : string;
  thought : string;
  observation : option string;   (* = None *)
  reflection : option string;    (* = None *)
  status : string                (* = "pending" *)
}.

(** [class TaskStatus(Enum)] *)
Inductive TaskStatus : Type := PENDING | IN_PROGRESS | COMPLETED | FAILED | BLOCKED.

Definition TaskStatus_value (s : TaskStatus) : string :=
  match s with
  | PENDING => "pending"
  | IN_PROGRESS => "in_progress"
  | COMPLETED => "completed"
  | FAILED => "failed"
  | BLOCKED => "blocked"
  end.

(** A dictionary of the [results] list of [execute_task]. *)
Module StepResult.
Record t : Type := Make {
  action : string;
  thought : string;
  observation : string;
  reflection : string
}.
End StepResult.

(** The dictionary [execute_task] returns; [None] is an absent key. *)
Module TaskResult.
Record t : Type := Make {
  status : string;
  results : option (list StepResult.t);
  error : option string
}.
End TaskResult.

(** The object, by the one attribute its methods read and write. *)
Record TaskManager : Type := MkTaskManager {
  active_tasks : gmap string (list TaskStep)
}.

(** The private methods that [create_task] and [execute_task] call on
    [self]. Python binds them when they are called, so they are the
    object's to supply; each is a function of the arguments it is given
    and may raise. *)
Class Hooks : Type := MkHooks {
  _generate_thought : string -> Context -> exc string;
  _create_plan : string -> Context -> exc (list TaskStep);
  _execute_step : TaskStep -> exc string;
  _reflect_on_step : string -> exc string;
  _needs_replanning : string -> exc bool;
  _replan_task : string -> list StepResult.t -> exc (list TaskStep)
}.

(** The methods as the class defines them; [llm] answers the chain that
    [_generate_thought] runs on the task and [str(context)]. *)
Definition TaskManager_hooks (llm : string -> Context -> exc string) : Hooks :=
  {| _generate_thought := llm;
     _create_plan := fun thought context => Ok [];
     _execute_step := fun step => Ok "Step execution result";
     _reflect_on_step := fun result => Ok "Step reflection";
     _needs_replanning := fun reflection => Ok false;
     _replan_task := fun task_id previous_results => Ok [] |}.

(** [_generate_task_id], on the clock reading [now] formatted as
    [%Y%m%d_%H%M%S] *)
Definition _generate_task_id (now : string) : string := "task_" +:+ now.

Definition not_found (task_id : string) : exn :=
  ValueError ("Task " +:+ task_id +:+ " not found").

Definition set_task (self : TaskManager) (task_id : string) (steps : list TaskStep)
  : TaskManager :=
  MkTaskManager (<[task_id := steps]> (active_tasks self)).

Section Methods.
Context {hooks : Hooks}.

Definition create_task (now : string) (self : TaskManager)
    (task_description : string) (context : Context) : TaskManager * exc string :=
  let task_id := _generate_task_id now in
  match (try! initial_thought <- _generate_thought task_description context;
         _create_plan initial_thought context) with
  | Ok plan => (set_task self task_id plan, Ok task_id)
  | Raise e => (self, Raise e)
  end.

(** The step as the loop body leaves it. *)
Definition processed (step : TaskStep) (result reflection : string) : TaskStep :=
  MkTaskStep (action step) (thought step) (Some result) (Some reflection) "completed".

Definition record_of (step : TaskStep) (result reflection : string) : StepResult.t :=
  StepResult.Make (action step) (thought step) result reflection.

(** The loop [for step in steps] of [execute_task]. The iterator of a
    Python list holds an index [i] and stops when [i] is past the end of
    the list as it then is, so the steps that [steps.extend(new_plan)]
    adds are visited too. [fuel] bounds the number of turns; [None] is a
    loop that has not finished within it. The first component of the
    result is the list as the loop leaves it, the second the [results] or
    the exception that ended the loop. *)
Fixpoint run_steps (fuel : nat) (task_id : string) (i : nat)
    (steps : list TaskStep) (results : list StepResult.t)
  : option (list TaskStep * exc (list StepResult.t)) :=
  match fuel with
  | O => None
  | S fuel' =>
      match steps !! i with
      | None => Some (steps, Ok results)
      | Some step =>
          match _execute_step step with
          | Raise e => Some (steps, Raise e)
          | Ok result =>
              match _reflect_on_step result with
              | Raise e => Some (steps, Raise e)
              | Ok reflection =>
                  let steps1 := <[i := processed step result reflection]> steps in
                  let results1 := results ++ [record_of step result reflection] in
                  match _needs_replanning reflection with
                  | Raise e => Some (steps1, Raise e)
                  | Ok false => run_steps fuel' task_id (S i) steps1 results1
                  | Ok true =>
                      match _replan_task task_id results1 with
                      | Raise e => Some (steps1, Raise e)
                      | Ok new_plan =>
                          run_steps fuel' task_id (S i) (steps1 ++ new_plan) results1
                      end
                  end
              end
          end
      end
  end.

(** [execute_task(task_id)]. [steps] is the list object that
    [active_tasks] holds, so what the loop does to it is what the task
    store holds afterwards, also when the loop ends in an exception. *)
Definition execute_task (fuel : nat) (self : TaskManager) (task_id : string)
  : option (TaskManager * exc TaskResult.t) :=
  match active_tasks self !! task_id with
  | None => Some (self, Raise (not_found task_id))
  | Some steps =>
      match run_steps fuel task_id 0 steps [] with
      | None => None
      | Some (steps', Ok results) =>
          Some (set_task self task_id steps',
                Ok (TaskResult.Make "success" (Some results) None))
      | Some (steps', Raise e) =>
          Some (set_task self task_id steps',
                Ok (TaskResult.Make "failed" None (Some (exn_str e))))
      end
  end.

End Methods.

Definition is_completed (step : TaskStep) : Prop := status step = "completed".

#[global] Instance is_completed_dec step : Decision (is_completed step).
Proof. unfold is_completed. apply _. Defined.

(** [sum(1 for step in steps if step.status == "completed")] *)
Definition count_completed (steps : list TaskStep) : nat :=
  sum_list ((fun _ => 1) <$> filter is_completed steps).

(** [get_task_status(task_id)]; it returns the object too, as every
    method does here. *)
Definition get_task_status (self : TaskManager) (task_id : string)
  : TaskManager * exc TaskStatus :=
  match active_tasks self !! task_id with
  | None => (self, Raise (not_found task_id))
  | Some steps =>
      match steps with
      | [] => (self, Ok PENDING)
      | _ =>
          let completed := count_completed steps in
          let total := length steps in
          if Nat.eqb completed 0 then (self, Ok PENDING)
          else if Nat.eqb completed total then (self, Ok COMPLETED)
          else (self, Ok IN_PROGRESS)
      end
  end.

End Planner.

(** ** [jarvis/api.py] *)

Module Api.
Import Planner.

(** What a request handler comes to: the value it returns, or the
    [HTTPException] it raises. *)
Inductive http (A : Type) : Type :=
  | Respond (body : A)
  | HTTPException (status_code : Z) (detail : string).
Arguments Respond {A} body.
Arguments HTTPException {A} status_code detail.

#[global] Instance TaskStatus_eq_dec : EqDecision TaskStatus.
Proof. solve_decision. Defined.

(** The dictionary [get_task] returns. *)
Module TaskInfo.
Record t : Type := Make {
  status : string;
  task_id : string;
  completed : bool
}.
End TaskInfo.

(** [get_task(task_id)], the handler of [GET /tasks/{task_id}], on the
    module's [planner]. *)
Definition get_task (planner : TaskManager) (task_id : string)
  : TaskManager * http TaskInfo.t :=
  match get_task_status planner task_id with
  | (planner', Ok status) =>
      (planner', Respond (TaskInfo.Make (TaskStatus_value status) task_id
                            (bool_decide (status = COMPLETED))))
  | (planner', Raise (ValueError _)) =>
      (planner', HTTPException 404 ("Task " +:+ task_id +:+ " not found"))
  | (planner', Raise e) =>
      (planner', HTTPException 500 (exn_str e))
  end.

(** [class ChatRequest(BaseModel)] *)
Module ChatRequest.
Record t : Type := Make {
  message : string;
  context : Context
}.
End ChatRequest.

(** [class ChatResponse(BaseModel)] *)
Module ChatResponse.
Record t : Type := Make {
  response : string;
  task_id : option string;       (* = None *)
  context : Context;
  status : string                (* = "success" *)
}.
End ChatResponse.

(** The calls [chat] makes on the components other than the planner. On a
    text, [io_manager.process_input] and [io_manager.generate_output]
    return a dictionary that holds the text as its content; [memory.store]
    on a dictionary with entries and [persona.adapt_persona] catch what is
    raised inside them, and [chat] does not read what they return. *)
Inductive call : Type :=
  | ProcessInput (message : string)
  | GenerateOutput (content : string)
  | MemoryStore (input task_id : string) (result : TaskResult.t) (context : Context)
  | AdaptPersona (input : string) (result : TaskResult.t) (context : Context).

(** [chat(request)], the handler of [POST /chat], on the module's
    [planner] and with the clock reading [now]; [None] when [execute_task]
    has not returned within [fuel] loop turns. Reading the key [results]
    of a dictionary that lacks it raises a [KeyError], whose text is the
    key in quotes. *)
Definition chat {hooks : Hooks} (fuel : nat) (now : string) (planner : TaskManager)
    (request : ChatRequest.t)
  : option (TaskManager * list call * http ChatResponse.t) :=
  let message := ChatRequest.message request in
  let context := ChatRequest.context request in
  match create_task now planner message context with
  | (planner1, Raise e) =>
      Some (planner1, [ProcessInput message], HTTPException 500 (exn_str e))
  | (planner1, Ok task_id) =>
      match execute_task fuel planner1 task_id with
      | None => None
      | Some (planner2, Raise e) =>
          Some (planner2, [ProcessInput message], HTTPException 500 (exn_str e))
      | Some (planner2, Ok result) =>
          match TaskResult.results result with
          | None =>
              Some (planner2, [ProcessInput message], HTTPException 500 "'results'")
          | Some results =>
              let content :=
                match last results with
                | Some r => StepResult.observation r
                | None => "Task completed successfully"
                end in
              Some (planner2,
                    [ProcessInput message; GenerateOutput content;
                     MemoryStore message task_id result context;
                     AdaptPersona message result context],
                    Respond (ChatResponse.Make content (Some task_id) context "success"))
          end
      end
  end.

End Api.

(** ** [jarvis/core/memory.py]: [MemoryCore.store] *)

Module Memory.

(** The dictionary to store. *)
Definition Data : Type := gmap string string.

(** What [store] asks of the stores behind it. *)
Inductive request : Type :=
  | RedisSet (key value : string) (ex : Z)           (* self.short_term.set(key, value, ex=ex) *)
  | ChromaAdd (document : string) (metadata : gmap string string) (id : string).
                                                     (* self.mid_term_collection.add(...) *)

(** What answers: [json.dumps], which raises on a value it cannot
    serialize, and the two stores, which may raise on any request. *)
Record Backend : Type := MkBackend {
  json_dumps : Data -> exc string;
  serve : request -> exc unit
}.

(** The object, by the configuration key that [store] reads,
    [config["short_term"]["ttl"]]; [None] is an absent key. *)
Record MemoryCore : Type := MkMemoryCore {
  short_term_ttl : option Z
}.

Definition tiers : list string := ["short_term"; "mid_term"; "long_term"].

(** The body of the [try] block of [store]: the requests made, and [True]
    or the exception that ended the block. *)
Definition store_in_tier (backend : Backend) (now : string) (self : MemoryCore)
    (data : Data) (tier : string) (context : option string)
  : list request * exc bool :=
  if String.eqb tier "short_term" then
    let key := "mem:" +:+ now in
    match json_dumps backend data with
    | Raise e => ([], Raise e)
    | Ok value =>
        match short_term_ttl self with
        | None => ([], Raise (OtherException "'ttl'"))
        | Some ttl =>
            match serve backend (RedisSet key value ttl) with
            | Raise e => ([RedisSet key value ttl], Raise e)
            | Ok _ => ([RedisSet key value ttl], Ok true)
            end
        end
    end
  else if String.eqb tier "mid_term" then
    let metadata : gmap string string :=
      match context with
      | Some c => if Shlex.nonempty c then {[ "context" := c ]} else ∅
      | None => ∅
      end in
    match json_dumps backend data with
    | Raise e => ([], Raise e)
    | Ok document =>
        let r := ChromaAdd document metadata ("mid:" +:+ now) in
        match serve backend r with
        | Raise e => ([r], Raise e)
        | Ok _ => ([r], Ok true)
        end
    end
  else
    (* long_term: the data is logged *)
    ([], Ok true).

(** [store(data, tier, context)], with the clock reading [now] in ISO
    format. *)
Definition store (backend : Backend) (now : string) (self : MemoryCore)
    (data : Data) (tier : string) (context : option string)
  : list request * exc bool :=
  if decide (data = ∅) then ([], Raise (ValueError "Cannot store empty data"))
  else if negb (existsb (String.eqb tier) tiers) then
    ([], Raise (ValueError ("Invalid memory tier: " +:+ tier)))
  else
    match store_in_tier backend now self data tier context with
    | (requests, Ok stored) => (requests, Ok stored)
    | (requests, Raise _) => (requests, Ok false)
    end.

End Memory.

(** ** [jarvis/modules/io_manager.py]: the conversations *)

Module IOManager.

(** A message of a conversation: a dictionary. *)
Definition Message : Type := gmap string string.

(** The object, by the attribute that the conversation methods use. *)
Record InputOutputManager : Type := MkInputOutputManager {
  active_conversations : gmap string (list Message)
}.

Definition not_found (conversation_id : string) : exn :=
  ValueError ("Conversation " +:+ conversation_id +:+ " not found").

(** [start_conversation()], on the clock reading [now] formatted as
    [%Y%m%d_%H%M%S] *)
Definition start_conversation (now : string) (self : InputOutputManager)
  : InputOutputManager * string :=
  let conversation_id := "conv_" +:+ now in
  (MkInputOutputManager (<[conversation_id := []]> (active_conversations self)),
   conversation_id).

(** [add_to_conversation(conversation_id, message)], with the clock
    reading [now] as it is stored under the key [timestamp] *)
Definition add_to_conversation (now : string) (self : InputOutputManager)
    (conversation_id : string) (message : Message)
  : InputOutputManager * exc unit :=
  match active_conversations self !! conversation_id with
  | None => (self, Raise (not_found conversation_id))
  | Some history =>
      (MkInputOutputManager
         (<[conversation_id := history ++ [<["timestamp" := now]> message]]>
            (active_conversations self)),
       Ok ())
  end.

(** [get_conversation_history(conversation_id)] *)
Definition get_conversation_history (self : InputOutputManager)
    (conversation_id : string) : exc (list Message) :=
  match active_conversations self !! conversation_id with
  | None => Raise (not_found conversation_id)
  | Some history => Ok history
  end.

End IOManager.

(** ** [jarvis/utils/data_bus.py]: the local side of [DataHub] *)

Module DataBus.

(** [class DataBusMessage] *)
Record DataBusMessage : Type := MkMessage {
  source : string;
  message_type : string;
  payload : string;
  timestamp : string
}.

(** A subscriber: a callable, told from the others by its identity. A
    callback is taken not to call back into the hub. *)
Definition Callback : Type := nat.

Record DataHub : Type := MkDataHub {
  subscribers : gmap string (list Callback);
  message_history : list DataBusMessage;
  max_history : nat                        (* = 1000 *)
}.

(** [l.remove(x)]: the list without the first element equal to [x], or
    [None] where Python raises [ValueError]. *)
Fixpoint list_remove (x : Callback) (l : list Callback) : option (list Callback) :=
  match l with
  | [] => None
  | y :: rest =>
      if decide (y = x) then Some rest
      else match list_remove x rest with
           | Some rest' => Some (y :: rest')
           | None => None
           end
  end.

(** [_handle_message(message)]: the hub as it leaves it, and the callbacks
    it called, in order. What a callback raises is logged and dropped, so
    it bears on neither. *)
Definition _handle_message (self : DataHub) (message : DataBusMessage)
  : DataHub * list (Callback * DataBusMessage) :=
  let appended := message_history self ++ [message] in
  let history :=
    if Nat.ltb (max_history self) (length appended) then drop 1 appended else appended in
  (MkDataHub (subscribers self) history (max_history self),
   match subscribers self !! message_type message with
   | Some callbacks => (fun callback => (callback, message)) <$> callbacks
   | None => []
   end).

(** [subscribe(message_type, callback)] *)
Definition subscribe (self : DataHub) (message_type : string) (callback : Callback)
  : DataHub :=
  MkDataHub
    (<[message_type := default [] (subscribers self !! message_type) ++ [callback]]>
       (subscribers self))
    (message_history self) (max_history self).

(** [unsubscribe(message_type, callback)] *)
Definition unsubscribe (self : DataHub) (message_type : string) (callback : Callback)
  : DataHub * bool :=
  match subscribers self !! message_type with
  | Some callbacks =>
      match list_remove callback callbacks with
      | Some callbacks' =>
          (MkDataHub (<[message_type := callbacks']> (subscribers self))
             (message_history self) (max_history self),
           true)
      | None => (self, false)
      end
  | None => (self, false)
  end.

(** [get_message_history(message_type, limit)]; an empty type and a limit
    of zero count as none given. *)
Definition get_message_history (self : DataHub) (message_type : option string)
    (limit : option Z) : list DataBusMessage :=
  let messages := message_history self in
  let messages :=
    match message_type with
    | Some t =>
        if Shlex.nonempty t
        then filter (fun m => DataBus.message_type m = t) messages
        else messages
    | None => messages
    end in
  match limit with
  | Some n => if Z.eqb n 0 then messages else Pylist.slice_from (- n) messages
  | None => messages
  end.

(** [clear_history()] *)
Definition clear_history (self : DataHub) : DataHub :=
  MkDataHub (subscribers self) [] (max_history self).

End DataBus.

(** ** Objects and oracles the statements below are read on *)

Module Examples.
Import System.

(** A [SystemCore] built from an empty configuration: nothing blocked,
    [/tmp] allowed, 300 seconds. *)
Definition default_core : SystemCore := __init__ (Config.Make None None None).

(** An operating system on which every command exits at once with code 0. *)
Definition quiet_os : OS := fun _ => Exits 0 "" "".

(** A language model that answers every prompt. *)
Definition obliging_llm : string -> Planner.Context -> exc string :=
  fun task context => Ok "Think step by step".

(** A language model that is out of reach. *)
Definition failing_llm : string -> Planner.Context -> exc string :=
  fun task context => Raise (OtherException "connection refused").

(** The methods of [TaskManager] as the source defines them. *)
Definition source_hooks : Planner.Hooks := Planner.TaskManager_hooks obliging_llm.

Definition retry_step : Planner.TaskStep :=
  Planner.MkTaskStep "retry" "try once more" None None "pending".

(** A subclass whose reflection asks for replanning after every step and
    whose replanning answers with one more step each time. *)
Definition storm_hooks : Planner.Hooks :=
  {| Planner._generate_thought := obliging_llm;
     Planner._create_plan := fun thought context => Ok [];
     Planner._execute_step := fun step => Ok "Step execution result";
     Planner._reflect_on_step := fun result => Ok "Step reflection";
     Planner._needs_replanning := fun reflection => Ok true;
     Planner._replan_task := fun task_id previous_results => Ok [retry_step] |}.

Definition no_tasks : Planner.TaskManager := Planner.MkTaskManager ∅.

Definition done_step : Planner.TaskStep :=
  Planner.MkTaskStep "ls /tmp" "look around"
    (Some "Step execution result") (Some "Step reflection") "completed".

Definition todo_step : Planner.TaskStep :=
  Planner.MkTaskStep "df -h" "check the disk" None None "pending".

(** A task store with one task, [t], whose first step of two is completed. *)
Definition half_done : Planner.TaskManager :=
  Planner.MkTaskManager {[ "t" := [done_step; todo_step] ]}.

(** A subclass that plans one step and whose step executor fails. *)
Definition broken_hooks : Planner.Hooks :=
  {| Planner._generate_thought := obliging_llm;
     Planner._create_plan := fun thought context => Ok [todo_step];
     Planner._execute_step := fun step => Raise (OtherException "disk unreachable");
     Planner._reflect_on_step := fun result => Ok "Step reflection";
     Planner._needs_replanning := fun reflection => Ok false;
     Planner._replan_task := fun task_id previous_results => Ok [] |}.

(** A subclass that plans two steps and reports the action of a step as
    what it observed. *)
Definition echo_hooks : Planner.Hooks :=
  {| Planner._generate_thought := obliging_llm;
     Planner._create_plan := fun thought context => Ok [done_step; todo_step];
     Planner._execute_step := fun step => Ok (Planner.action step);
     Planner._reflect_on_step := fun result => Ok "Step reflection";
     Planner._needs_replanning := fun reflection => Ok false;
     Planner._replan_task := fun task_id previous_results => Ok [] |}.

End Examples.

(** ** Notions of the specification, over the code *)

Module Notions.
Import Planner.

(** A result record and the step it was made from, once the loop body is
    through with it. *)
Definition records (r : StepResult.t) (step : TaskStep) : Prop :=
  action step = StepResult.action r
  /\ thought step = StepResult.thought r
  /\ observation step = Some (StepResult.observation r)
  /\ reflection step = Some (StepResult.reflection r)
  /\ status step = "completed".

(** [execute_task] returns: some number of loop turns is enough. *)
Definition terminates (hooks : Hooks) (self : TaskManager) (task_id : string) : Prop :=
  exists fuel r, execute_task (hooks := hooks) fuel self task_id = Some r.

(** The reflection evaluator of the specification, [reflect(outcome)]: the
    two calls that [execute_task] makes on the outcome of a step. *)
Definition reflect (hooks : Hooks) (outcome : string) : exc (string * bool) :=
  try! reflection <- _reflect_on_step outcome;
  try! needs_replan <- _needs_replanning reflection;
  Ok (reflection, needs_replan).

(** The status of a task in the words of the specification: pending if
    zero steps are completed; completed if all steps are completed;
    otherwise in progress. *)
Definition status_from_steps (steps : list TaskStep) : TaskStatus :=
  if decide (Forall (fun step => ~ is_completed step) steps) then PENDING
  else if decide (Forall is_completed steps) then COMPLETED
  else IN_PROGRESS.

(** The steps from the first one that is not completed on. *)
Fixpoint from_first_pending (steps : list TaskStep) : list TaskStep :=
  match steps with
  | [] => []
  | step :: rest =>
      if decide (is_completed step) then from_first_pending rest else steps
  end.

(** The step list [steps'] still holds, position for position, the steps
    of [steps] with their action and thought. *)
Definition keeps_plan (steps steps' : list TaskStep) : Prop :=
  forall i step, steps !! i = Some step ->
    exists step', steps' !! i = Some step'
                  /\ action step' = action step /\ thought step' = thought step.

End Notions.

(** * Properties of [SystemCore] *)

Section SystemCore_properties.
Import System.

Lemma validated_is_tokenized self command u :
  _validate_command self command = Ok u ->
  exists argv, Shlex.split command = Ok argv.
Proof.
  unfold _validate_command, exc_bind.
  destruct (Shlex.split command) as [argv|e]; [eauto | discriminate].
Qed.

Lemma alter_last {A} (f : A -> A) (l : list A) (x : A) :
  alter f (length l) (l ++ [x]) = l ++ [f x].
Proof. induction l as [|y l IH]; simpl; [reflexivity | f_equal; exact IH]. Qed.

Lemma redirect_validated :
  _validate_command Examples.default_core "ls > out" = Ok ().
Proof. vm_compute. reflexivity. Qed.

Lemma redirect_tokens : Shlex.split "ls > out" = Ok ["ls"; ">"; "out"].
Proof. vm_compute. reflexivity. Qed.

(** C1, at an action that holds the character [>]: on a [SystemCore] with
    the default rules, whatever the operating system answers and whenever
    it is asked, [execute_command] on [ls > out] asks for the child process
    [ls] with the arguments [>] and [out], and its result is not a
    [security_violation]. The pattern for output redirection asks for a
    second [>] or a [&] after the [>]. *)
Theorem single_redirect_is_launched (os : OS) (now : Z) :
  exists self' more result,
    execute_command os now Examples.default_core "ls > out" None
      = (self', CreateSubprocessExec ["ls"; ">"; "out"] :: more, result)
    /\ Result.status result <> "security_violation".
Proof.
  unfold execute_command.
  rewrite redirect_validated, redirect_tokens.
  destruct (os _) as [msg|rc out err| |msg]; do 3 eexists; (split; [reflexivity|]); simpl.
  - discriminate.
  - destruct (Z.eqb rc 0); discriminate.
  - discriminate.
  - discriminate.
Qed.

(** C2 as stated fails: the action [rm -rf / ; echo done] is rejected with
    [security_violation], and the history is the empty one it was. *)
Lemma rejected_command_not_recorded :
  execute_command Examples.quiet_os 0 Examples.default_core "rm -rf / ; echo done" None
    = (Examples.default_core, [],
       Result.Make "security_violation" None None None
         (Some "Dangerous pattern detected: [;&|]"))
  /\ command_history Examples.default_core = [].
Proof. split; vm_compute; reflexivity. Qed.

(** C2, amended: an invocation of [execute_command] whose action passes
    [_validate_command] adds exactly one entry, for that action and clock
    reading, at the end of the history, whatever becomes of the process (it
    exits with any code, times out, cannot be started, or the wait fails);
    an invocation whose action does not pass (a [security_violation], or an
    [error] from splitting it) leaves the history as it was. *)
Theorem history_grows_iff_validated (os : OS) (now : Z) (self : SystemCore)
    (command : string) (context : option Context) :
  let self' := (execute_command os now self command context).1.1 in
  match _validate_command self command with
  | Ok _ =>
      exists r, command_history self' = command_history self ++ [r]
                /\ CmdRecord.command r = command
                /\ CmdRecord.timestamp r = now
  | Raise _ => command_history self' = command_history self
  end.
Proof.
  unfold execute_command.
  destruct (_validate_command self command) as [u|e] eqn:Hv; [|reflexivity].
  destruct (validated_is_tokenized _ _ _ Hv) as [argv ->].
  destruct (os argv) as [msg|rc out err| |msg]; simpl;
    rewrite ?alter_last; eexists; (split; [reflexivity|]); simpl; auto.
Qed.

(** C3: whatever [execute_command] asks of the operating system, it asks
    after [_validate_command] has returned without raising; a process it
    starts is started with [create_subprocess_exec] on exactly the tokens
    of the action, and the only other request is the termination signal to
    that process. No request goes through a shell. *)
Theorem launch_requires_validation (os : OS) (now : Z) (self : SystemCore)
    (command : string) (context : option Context) (e : event) :
  e ∈ (execute_command os now self command context).1.2 ->
  _validate_command self command = Ok ()
  /\ exists argv, Shlex.split command = Ok argv
       /\ (e = CreateSubprocessExec argv \/ e = SendSignal "SIGTERM").
Proof.
  unfold execute_command.
  destruct (_validate_command self command) as [[]|err] eqn:Hv;
    [|simpl; intros H; by apply not_elem_of_nil in H].
  destruct (validated_is_tokenized _ _ _ Hv) as [argv Hs]. rewrite Hs.
  intros He. split; [reflexivity|]. exists argv. split; [reflexivity|].
  destruct (os argv); simpl in He;
    repeat (apply elem_of_cons in He as [He|He]; [subst e; auto|]);
    by apply not_elem_of_nil in He.
Qed.

Lemma launch_requires_validation_witness :
  CreateSubprocessExec ["echo"; "test"]
    ∈ (execute_command Examples.quiet_os 0 Examples.default_core "echo test" None).1.2
  /\ _validate_command Examples.default_core "echo test" = Ok ().
Proof.
  assert (H : CreateSubprocessExec ["echo"; "test"]
    ∈ (execute_command Examples.quiet_os 0 Examples.default_core "echo test" None).1.2).
  { vm_compute. left. }
  split; [exact H|].
  exact (proj1 (launch_requires_validation _ _ _ _ _ _ H)).
Defined.

Lemma path_allowed_spec (self : SystemCore) (arg : string) :
  path_allowed self arg = true <->
  exists allowed, allowed ∈ allowed_paths self
                  /\ String.prefix allowed (Pathlib.str (Pathlib.Path arg)) = true.
Proof.
  unfold path_allowed. rewrite existsb_exists. split.
  - intros (a & Hin & Hp). exists a. split; [|exact Hp].
    apply elem_of_elements, list_elem_of_In, Hin.
  - intros (a & Hin & Hp). exists a. split; [|exact Hp].
    apply list_elem_of_In, elem_of_elements, Hin.
Qed.

(** C10: the check of an argument against the allowed paths holds exactly
    when the text of the path, [str(Path(arg))], begins with the text of
    some allowed path, so the arguments of a command pass the path loop as
    soon as each one that begins with [/] has such a prefix; with the
    default [/tmp], the arguments [/tmpevil] and [/tmp-other] pass the whole
    of [_validate_command], though neither lies under the directory
    [/tmp]. *)
Theorem allowed_path_is_string_prefix :
  (forall (self : SystemCore) (arg : string),
      path_allowed self arg = true <->
      exists allowed, allowed ∈ allowed_paths self
                      /\ String.prefix allowed (Pathlib.str (Pathlib.Path arg)) = true)
  /\ (forall (self : SystemCore) (args : list string),
        (forall arg, arg ∈ args -> String.prefix "/" arg = true ->
           exists allowed, allowed ∈ allowed_paths self
                           /\ String.prefix allowed (Pathlib.str (Pathlib.Path arg)) = true) ->
        validate_paths self args = Ok ())
  /\ _validate_command Examples.default_core "cat /tmpevil" = Ok ()
  /\ _validate_command Examples.default_core "cat /tmp-other" = Ok ().
Proof.
  split; [exact path_allowed_spec|]. split.
  - intros self args. induction args as [|arg rest IH]; intros Hall; [reflexivity|].
    simpl. destruct (String.prefix "/" arg) eqn:Habs.
    + destruct (path_allowed self arg) eqn:Hpa.
      * apply IH. intros a Ha. apply Hall. by right.
      * assert (Hok : path_allowed self arg = true).
        { apply path_allowed_spec, Hall; [by left | exact Habs]. }
        congruence.
    + apply IH. intros a Ha. apply Hall. by right.
  - split; vm_compute; reflexivity.
Qed.

Lemma tokens_raise_ValueError (input : string) :
  forall (lx : Shlex.lexer) (acc : list string) (e : exn),
    Shlex.tokens lx input acc = Raise e -> exists msg, e = ValueError msg.
Proof.
  induction input as [|c rest IH]; intros lx acc e; simpl.
  - unfold Shlex.on_eof, exc_bind.
    destruct (Shlex.state lx); try destruct (Shlex.result _);
      intros H; try discriminate; injection H as <-; eauto.
  - destruct (Shlex.on_char lx c) as [lx'|lx']; [apply IH|].
    destruct (Shlex.result lx'); [apply IH | discriminate].
Qed.

Lemma search_character (a : Re.atom) (c : ascii) (s : string) :
  Re.atom_matches a c = true -> In c (list_ascii_of_string s) ->
  Re.search [a] s = true.
Proof.
  intros Ha. induction s as [|c' rest IH]; simpl; [contradiction|].
  intros [->|Hin].
  - by rewrite Ha.
  - rewrite IH by exact Hin. apply orb_true_r.
Qed.

Lemma match_here_longer (p : list Re.atom) (s t : string) :
  Re.match_here p s = true -> Re.match_here p (s +:+ t) = true.
Proof.
  revert s. induction p as [|a p IH]; intros s; simpl; [reflexivity|].
  destruct s as [|c rest]; simpl; [discriminate|].
  intros [-> Hrest]%andb_true_iff. by rewrite IH.
Qed.

Lemma search_here (p : list Re.atom) (s : string) :
  Re.match_here p s = true -> Re.search p s = true.
Proof. intros H. destruct s; simpl; by rewrite H. Qed.

Lemma search_substring (p : list Re.atom) (pre sub post : string) :
  Re.match_here p sub = true ->
  Re.search p (pre +:+ sub +:+ post) = true.
Proof.
  intros Hsub. induction pre as [|c pre IH]; simpl.
  - apply search_here. exact (match_here_longer p sub post Hsub).
  - rewrite IH. apply orb_true_r.
Qed.

Lemma find_of_existsb {A} (f : A -> bool) (l : list A) :
  existsb f l = true -> exists y, List.find f l = Some y.
Proof.
  intros (x & Hin & Hx)%existsb_exists.
  destruct (List.find f l) as [y|] eqn:Hfind; [eauto|].
  pose proof (find_none _ _ Hfind x Hin). congruence.
Qed.

(** Finds the disjunct of a boolean disjunction that [tac] proves. *)
Ltac hunt tac :=
  first [ apply orb_true_intro; left; tac
        | apply orb_true_intro; right; hunt tac ].

(** The part of C1 that the code keeps: an action that holds one of the
    characters [;], [|], [&], [<] or a backtick, or one of the sequences
    [$(], [>>] or [>&], is never launched and leaves the object as it was;
    its result is a [security_violation] when the action can be split into
    tokens, and an [error] when it cannot (a quotation that is not closed,
    a backslash at the end). *)
Theorem dangerous_action_is_never_launched (os : OS) (now : Z) (self : SystemCore)
    (command : string) (context : option Context) :
  (exists c, In c [";"; "|"; "&"; "<"; "`"]%char /\ In c (list_ascii_of_string command))
  \/ (exists pre sub post, In sub ["$("; ">>"; ">&"] /\ command = pre +:+ sub +:+ post) ->
  exists result,
    execute_command os now self command context = (self, [], result)
    /\ match Shlex.split command with
       | Ok _ => Result.status result = "security_violation"
       | Raise _ => Result.status result = "error"
       end.
Proof.
  intros Hdanger.
  assert (Hfind : exists p, List.find (fun p => Re.search p.2 command) dangerous_patterns
                            = Some p).
  { apply find_of_existsb. unfold dangerous_patterns. cbn [existsb snd].
    destruct Hdanger as [(c & Hc & Hin)|(pre & sub & post & Hsub & ->)].
    - simpl in Hc. destruct Hc as [<-|[<-|[<-|[<-|[<-|[]]]]]];
        hunt ltac:(eapply search_character; [|exact Hin]; reflexivity).
    - simpl in Hsub. destruct Hsub as [<-|[<-|[<-|[]]]];
        hunt ltac:(apply search_substring; reflexivity). }
  destruct Hfind as [p Hfind].
  unfold execute_command, _validate_command, Shlex.split, exc_bind.
  destruct (Shlex.tokens _ command []) as [[|cmd0 args]|e] eqn:Htok.
  - eexists. split; reflexivity.
  - destruct (bool_decide _); [eexists; split; reflexivity|].
    rewrite Hfind. eexists. split; reflexivity.
  - destruct (tokens_raise_ValueError _ _ _ _ Htok) as [msg ->].
    eexists. split; reflexivity.
Qed.

Lemma dangerous_action_is_never_launched_witness :
  exists result,
    execute_command Examples.quiet_os 0 Examples.default_core "cat < notes" None
      = (Examples.default_core, [], result)
    /\ Result.status result = "security_violation".
Proof.
  destruct (dangerous_action_is_never_launched Examples.quiet_os 0 Examples.default_core
              "cat < notes" None) as (result & Hrun & Hstatus).
  - left. exists "<"%char. split; simpl; tauto.
  - exists result. split; [exact Hrun | exact Hstatus].
Defined.

End SystemCore_properties.

(** * Properties of [TaskManager] *)

Section TaskManager_properties.
Import Planner Notions.

Lemma records_processed (step : TaskStep) (result refl : string) :
  records (record_of step result refl) (processed step result refl).
Proof. repeat split. Qed.

Lemma take_next_processed (steps : list TaskStep) (i : nat) (step new : TaskStep) :
  steps !! i = Some step ->
  take (S i) (<[i := new]> steps) = take i steps ++ [new].
Proof.
  intros Hi. apply lookup_lt_Some in Hi as Hlt.
  rewrite (take_S_r _ _ new) by (by apply list_lookup_insert_eq).
  by rewrite take_insert_ge.
Qed.

(** The loop keeps one result per step it has been through, in the order
    of the steps, and leaves each of those steps completed. *)
Lemma run_steps_records {hooks : Hooks} (fuel : nat) (task_id : string) :
  forall (i : nat) (steps : list TaskStep) (results : list StepResult.t)
         (steps' : list TaskStep) (results' : list StepResult.t),
    i <= length steps ->
    Forall2 records results (take i steps) ->
    run_steps fuel task_id i steps results = Some (steps', Ok results') ->
    Forall2 records results' steps'.
Proof.
  induction fuel as [|fuel IH]; intros i steps results steps' results' Hi Hinv Hrun;
    [discriminate|].
  simpl in Hrun.
  destruct (steps !! i) as [step|] eqn:Hstep.
  - destruct (_execute_step step) as [result|]; [|congruence].
    destruct (_reflect_on_step result) as [refl|]; [|congruence].
    assert (Hnext : Forall2 records (results ++ [record_of step result refl])
                      (take (S i) (<[i := processed step result refl]> steps))).
    { rewrite (take_next_processed _ _ step) by done.
      apply Forall2_app; [exact Hinv|].
      constructor; [apply records_processed | constructor]. }
    apply lookup_lt_Some in Hstep as Hlt.
    destruct (_needs_replanning refl) as [[|]|]; [|  |congruence].
    + destruct (_replan_task _ _) as [new_plan|]; [|congruence].
      eapply IH; [| |exact Hrun].
      * rewrite length_app, length_insert. lia.
      * rewrite take_app_le by (rewrite length_insert; lia). exact Hnext.
    + eapply IH; [| |exact Hrun].
      * rewrite length_insert. lia.
      * exact Hnext.
  - injection Hrun as <- <-.
    apply lookup_ge_None_1 in Hstep.
    by rewrite take_ge in Hinv by lia.
Qed.

Lemma records_completed (results : list StepResult.t) (steps : list TaskStep) :
  Forall2 records results steps -> Forall is_completed steps.
Proof.
  induction 1 as [|r s rs ss Hrs _ IH]; constructor; [|exact IH].
  apply Hrs.
Qed.

(** C7: when [execute_task] returns with status [success], the task store
    holds for the task a step list to which the returned results answer
    one for one and in order (same action and thought, the observation and
    reflection that the step now carries), and every step of that list is
    marked completed; this for any step executor, reflection and
    replanning, so whatever the outcome of the action was. *)
Theorem success_has_one_result_per_step {hooks : Hooks} (fuel : nat)
    (self self' : TaskManager) (task_id : string) (res : TaskResult.t) :
  execute_task fuel self task_id = Some (self', Ok res) ->
  TaskResult.status res = "success" ->
  exists results steps',
    TaskResult.results res = Some results
    /\ active_tasks self' !! task_id = Some steps'
    /\ length results = length steps'
    /\ Forall2 records results steps'
    /\ Forall is_completed steps'.
Proof.
  unfold execute_task. intros Hrun Hstatus.
  destruct (active_tasks self !! task_id) as [steps|]; [|discriminate].
  destruct (run_steps fuel task_id 0 steps []) as [[steps' [results|e]]|] eqn:Hloop;
    [| |discriminate].
  - injection Hrun as <- <-.
    assert (Hrec : Forall2 records results steps').
    { eapply run_steps_records; [| |exact Hloop]; [lia | constructor]. }
    exists results, steps'. split; [reflexivity|].
    split; [apply lookup_insert_eq|].
    split; [by eapply Forall2_length|].
    split; [exact Hrec | by eapply records_completed].
  - injection Hrun as <- <-. discriminate.
Qed.

Lemma success_has_one_result_per_step_witness :
  exists (results : list StepResult.t) (steps' : list TaskStep),
    Some [record_of Examples.done_step "Step execution result" "Step reflection";
          record_of Examples.todo_step "Step execution result" "Step reflection"]
      = Some results
    /\ active_tasks
         (set_task Examples.half_done "t"
            [processed Examples.done_step "Step execution result" "Step reflection";
             processed Examples.todo_step "Step execution result" "Step reflection"])
         !! "t" = Some steps'
    /\ length results = length steps'
    /\ Forall2 records results steps'
    /\ Forall is_completed steps'.
Proof.
  exact (success_has_one_result_per_step (hooks := Examples.source_hooks) 3
           Examples.half_done
           (set_task Examples.half_done "t"
              [processed Examples.done_step "Step execution result" "Step reflection";
               processed Examples.todo_step "Step execution result" "Step reflection"])
           "t"
           (TaskResult.Make "success"
              (Some [record_of Examples.done_step "Step execution result" "Step reflection";
                     record_of Examples.todo_step "Step execution result" "Step reflection"])
              None)
           eq_refl eq_refl).
Defined.

(** C5 as stated fails: in the task [t] the first step is completed and the
    second is not, and [execute_task] returns two results, the first of
    them for the completed step, where the steps from the first one that is
    not completed on are one. *)
Lemma completed_step_is_run_again :
  execute_task (hooks := Examples.source_hooks) 3 Examples.half_done "t"
    = Some (set_task Examples.half_done "t"
              [Examples.done_step;
               processed Examples.todo_step "Step execution result" "Step reflection"],
            Ok (TaskResult.Make "success"
                  (Some [StepResult.Make "ls /tmp" "look around"
                           "Step execution result" "Step reflection";
                         StepResult.Make "df -h" "check the disk"
                           "Step execution result" "Step reflection"])
                  None))
  /\ from_first_pending [Examples.done_step; Examples.todo_step] = [Examples.todo_step].
Proof. split; reflexivity. Qed.

(** The loop with the methods of the source, from any index on. *)
Lemma run_steps_source (llm : string -> Context -> exc string) (task_id : string) (n : nat) :
  forall (i : nat) (steps : list TaskStep) (results : list StepResult.t),
    length steps = i + n ->
    run_steps (hooks := TaskManager_hooks llm) (S n) task_id i steps results
    = Some (take i steps
              ++ ((fun step => processed step "Step execution result" "Step reflection")
                    <$> drop i steps),
            Ok (results
                  ++ ((fun step => record_of step "Step execution result" "Step reflection")
                        <$> drop i steps))).
Proof.
  induction n as [|n IH]; intros i steps results Hlen.
  - simpl. rewrite lookup_ge_None_2 by lia.
    rewrite take_ge, drop_ge by lia. simpl. by rewrite !app_nil_r.
  - destruct (lookup_lt_is_Some_2 steps i) as [step Hstep]; [lia|].
    change (run_steps (S (S n)) task_id i steps results)
      with (match steps !! i with
            | None => Some (steps, Ok results)
            | Some step =>
                run_steps (hooks := TaskManager_hooks llm) (S n) task_id (S i)
                  (<[i := processed step "Step execution result" "Step reflection"]> steps)
                  (results ++ [record_of step "Step execution result" "Step reflection"])
            end).
    rewrite Hstep, IH by (rewrite length_insert; lia).
    rewrite (take_next_processed _ _ step) by done.
    rewrite drop_insert_lt by lia.
    rewrite (drop_S _ _ _ Hstep). simpl.
    by rewrite <- !app_assoc.
Qed.

(** C5, amended: [execute_task], with the methods of the source, goes
    through every step of the task from the first one on, whatever the
    status of a step is: it returns one result for each step of the list,
    in order, also for the steps that were completed before, and leaves
    each step with the new observation and reflection. *)
Theorem every_step_is_run_from_the_first (llm : string -> Context -> exc string)
    (self : TaskManager) (task_id : string) (steps : list TaskStep) :
  active_tasks self !! task_id = Some steps ->
  execute_task (hooks := TaskManager_hooks llm) (S (length steps)) self task_id
  = Some (set_task self task_id
            ((fun step => processed step "Step execution result" "Step reflection")
               <$> steps),
          Ok (TaskResult.Make "success"
                (Some ((fun step => record_of step "Step execution result" "Step reflection")
                         <$> steps))
                None)).
Proof.
  intros Hsteps. unfold execute_task. rewrite Hsteps.
  by rewrite run_steps_source by reflexivity.
Qed.

Lemma every_step_is_run_from_the_first_witness :
  execute_task (hooks := Examples.source_hooks) 3 Examples.half_done "t"
  = Some (set_task Examples.half_done "t"
            ((fun step => processed step "Step execution result" "Step reflection")
               <$> [Examples.done_step; Examples.todo_step]),
          Ok (TaskResult.Make "success"
                (Some ((fun step => record_of step "Step execution result" "Step reflection")
                         <$> [Examples.done_step; Examples.todo_step]))
                None)).
Proof.
  apply (every_step_is_run_from_the_first Examples.obliging_llm Examples.half_done "t"
           [Examples.done_step; Examples.todo_step]).
  reflexivity.
Defined.

(** With a reflection that always asks for replanning and a replanning
    that always answers with a step, the loop is never through. *)
Lemma storm_never_returns (fuel : nat) :
  forall (i : nat) (steps : list TaskStep) (results : list StepResult.t),
    i < length steps ->
    run_steps (hooks := Examples.storm_hooks) fuel "t" i steps results = None.
Proof.
  induction fuel as [|fuel IH]; intros i steps results Hi; [reflexivity|].
  destruct (lookup_lt_is_Some_2 steps i Hi) as [step Hstep].
  simpl. rewrite Hstep. apply IH.
  rewrite length_app, length_insert. simpl. lia.
Qed.

(** C6 as stated fails: with a reflection that signals replanning after
    every step and a replanning that adds a step at each round,
    [execute_task] on the task [t] does not return, whatever the number of
    loop turns it is given; no round limit stops it and it never reports a
    failure. *)
Lemma replanning_storm_diverges :
  ~ terminates Examples.storm_hooks Examples.half_done "t".
Proof.
  intros (fuel & r & Hrun). unfold execute_task in Hrun.
  change (active_tasks Examples.half_done !! "t")
    with (Some [Examples.done_step; Examples.todo_step]) in Hrun.
  cbv beta iota in Hrun.
  rewrite storm_never_returns in Hrun by (simpl; lia).
  discriminate.
Qed.

Lemma run_steps_without_replanning {hooks : Hooks} (task_id : string) (n : nat) :
  (forall reflection, _needs_replanning reflection <> Ok true) ->
  forall (i : nat) (steps : list TaskStep) (results : list StepResult.t),
    length steps = i + n ->
    exists r, run_steps (S n) task_id i steps results = Some r.
Proof.
  intros Hquiet. induction n as [|n IH]; intros i steps results Hlen.
  - simpl. rewrite lookup_ge_None_2 by lia. eauto.
  - destruct (lookup_lt_is_Some_2 steps i) as [step Hstep]; [lia|].
    cbn [run_steps]. rewrite Hstep.
    destruct (_execute_step step) as [result|]; [|eauto].
    destruct (_reflect_on_step result) as [refl|]; [|eauto].
    destruct (_needs_replanning refl) as [[|]|] eqn:Hneeds; [| |eauto].
    + by apply Hquiet in Hneeds.
    + apply IH. rewrite length_insert. lia.
Qed.

(** Without a signal for replanning the run is one pass over the steps:
    for every task, [execute_task] returns when the reflection never
    signals that replanning is needed, as the [_needs_replanning] of the
    source, which returns [False] always: one loop turn for each step of
    the task, and one to find the end of the list, are enough. *)
Theorem returns_when_no_replanning {hooks : Hooks} (self : TaskManager)
    (task_id : string) (steps : list TaskStep) :
  (forall reflection, _needs_replanning reflection <> Ok true) ->
  active_tasks self !! task_id = Some steps ->
  exists r, execute_task (S (length steps)) self task_id = Some r.
Proof.
  intros Hquiet Hsteps. unfold execute_task. rewrite Hsteps.
  destruct (run_steps_without_replanning task_id (length steps) Hquiet 0 steps [])
    as [[steps' [results|e]] ->]; [reflexivity| |]; eauto.
Qed.

Lemma returns_when_no_replanning_witness :
  exists r, execute_task (hooks := Examples.source_hooks) 3 Examples.half_done "t" = Some r.
Proof.
  apply (returns_when_no_replanning (hooks := Examples.source_hooks) Examples.half_done "t"
           [Examples.done_step; Examples.todo_step]).
  - intros reflection. simpl. discriminate.
  - reflexivity.
Defined.

(** A step executor and a reflection that never raise, a reflection that
    asks for replanning after every step, and a replanning that answers
    with at least one step each time: the loop, once it has a step before
    it, always has one more before it, and is never through. *)
Lemma run_steps_under_storm {hooks : Hooks} (task_id : string) :
  (forall step, exists result, _execute_step step = Ok result) ->
  (forall result, exists reflection, _reflect_on_step result = Ok reflection) ->
  (forall reflection, _needs_replanning reflection = Ok true) ->
  (forall id results, exists new_plan,
      _replan_task id results = Ok new_plan /\ new_plan <> []) ->
  forall (fuel i : nat) (steps : list TaskStep) (results : list StepResult.t),
    i < length steps ->
    run_steps fuel task_id i steps results = None.
Proof.
  intros Hexec Hrefl Hneeds Hreplan.
  induction fuel as [|fuel IH]; intros i steps results Hi; [reflexivity|].
  destruct (lookup_lt_is_Some_2 steps i Hi) as [step Hstep].
  cbn [run_steps]. rewrite Hstep.
  destruct (Hexec step) as [result ->].
  destruct (Hrefl result) as [refl ->].
  rewrite Hneeds.
  destruct (Hreplan task_id (results ++ [record_of step result refl]))
    as (new_plan & -> & Hnew).
  apply IH. rewrite length_app, length_insert.
  destruct new_plan as [|extra more]; [contradiction | simpl; lia].
Qed.

(** C6, amended: for every task, [execute_task] returns, within one loop
    turn for each step of the task and one to find the end of the list,
    when the reflection never signals that replanning is needed, as the
    [_needs_replanning] of the source, which returns [False] always. No
    limit on the rounds of replanning stops the loop and no failure is
    reported for their number: for a task with at least one step, when the
    step executor and the reflection never raise, the reflection signals
    replanning after every step and the replanning answers with at least
    one step each time, [execute_task] has not returned after any number of
    loop turns. *)
Theorem replanning_decides_termination {hooks : Hooks} (self : TaskManager)
    (task_id : string) (steps : list TaskStep) :
  active_tasks self !! task_id = Some steps ->
  ((forall reflection, _needs_replanning reflection <> Ok true) ->
   exists r, execute_task (S (length steps)) self task_id = Some r)
  /\ (steps <> [] ->
      (forall step, exists result, _execute_step step = Ok result) ->
      (forall result, exists reflection, _reflect_on_step result = Ok reflection) ->
      (forall reflection, _needs_replanning reflection = Ok true) ->
      (forall id results, exists new_plan,
          _replan_task id results = Ok new_plan /\ new_plan <> []) ->
      forall fuel, execute_task fuel self task_id = None).
Proof.
  intros Hsteps. split.
  - intros Hquiet. unfold execute_task. rewrite Hsteps.
    destruct (run_steps_without_replanning task_id (length steps) Hquiet 0 steps [])
      as [[steps' [results|e]] ->]; [reflexivity| |]; eauto.
  - intros Hne Hexec Hrefl Hneeds Hreplan fuel.
    unfold execute_task. rewrite Hsteps.
    rewrite (run_steps_under_storm task_id Hexec Hrefl Hneeds Hreplan fuel 0 steps []);
      [reflexivity|].
    destruct steps; [contradiction | simpl; lia].
Qed.

Lemma replanning_decides_termination_witness :
  (exists r, execute_task (hooks := Examples.source_hooks) 3 Examples.half_done "t" = Some r)
  /\ execute_task (hooks := Examples.storm_hooks) 1000 Examples.half_done "t" = None.
Proof.
  split.
  - apply (proj1 (replanning_decides_termination (hooks := Examples.source_hooks)
                    Examples.half_done "t" [Examples.done_step; Examples.todo_step]
                    eq_refl)).
    intros reflection. simpl. discriminate.
  - apply (proj2 (replanning_decides_termination (hooks := Examples.storm_hooks)
                    Examples.half_done "t" [Examples.done_step; Examples.todo_step]
                    eq_refl)).
    + discriminate.
    + intros step. simpl. eauto.
    + intros result. simpl. eauto.
    + intros reflection. reflexivity.
    + intros id results. simpl. eexists. split; [reflexivity | discriminate].
Defined.

(** C4 as stated fails: the language model answers, [_create_plan] yields
    no step, and [create_task] returns the new id and registers it with an
    empty step list. *)
Lemma empty_plan_is_registered :
  create_task (hooks := Examples.source_hooks) "20250101_120000" Examples.no_tasks
    "list files in /tmp" ∅
  = (set_task Examples.no_tasks "task_20250101_120000" [], Ok "task_20250101_120000")
  /\ active_tasks (set_task Examples.no_tasks "task_20250101_120000" [])
       !! "task_20250101_120000" = Some [].
Proof. split; [reflexivity | apply lookup_insert_eq]. Qed.

(** C4, amended: [create_task] fails, with the exception it met, whenever
    [_generate_thought] or [_create_plan] raises, and the task store is
    then as it was; when they return a plan, with steps or without,
    [create_task] returns the new id and the store maps it to that plan,
    every other id being as before. With the [_create_plan] of the source,
    which returns the empty list, the id maps to an empty step list. *)
Theorem create_task_fails_only_on_exception {hooks : Hooks} (now : string)
    (self : TaskManager) (task_description : string) (context : Context) :
  (forall e, _generate_thought task_description context = Raise e ->
     create_task now self task_description context = (self, Raise e))
  /\ (forall initial_thought e,
        _generate_thought task_description context = Ok initial_thought ->
        _create_plan initial_thought context = Raise e ->
        create_task now self task_description context = (self, Raise e))
  /\ (forall initial_thought plan,
        _generate_thought task_description context = Ok initial_thought ->
        _create_plan initial_thought context = Ok plan ->
        create_task now self task_description context
        = (set_task self (_generate_task_id now) plan, Ok (_generate_task_id now))
        /\ active_tasks (set_task self (_generate_task_id now) plan)
             !! _generate_task_id now = Some plan
        /\ forall task_id, task_id <> _generate_task_id now ->
             active_tasks (set_task self (_generate_task_id now) plan) !! task_id
             = active_tasks self !! task_id)
  /\ (forall llm initial_thought,
        llm task_description context = Ok initial_thought ->
        create_task (hooks := TaskManager_hooks llm) now self task_description context
        = (set_task self (_generate_task_id now) [], Ok (_generate_task_id now))).
Proof.
  unfold create_task, exc_bind.
  split; [intros e ->; reflexivity|].
  split; [intros t e -> ->; reflexivity|].
  split.
  - intros t plan -> ->. split; [reflexivity|].
    split; [apply lookup_insert_eq|].
    intros task_id Hne. simpl. by rewrite lookup_insert_ne.
  - intros llm t Hllm. simpl. by rewrite Hllm.
Qed.

Lemma create_task_fails_only_on_exception_witness :
  create_task (hooks := TaskManager_hooks Examples.failing_llm) "20250101_120000"
    Examples.half_done "list files in /tmp" ∅
  = (Examples.half_done, Raise (OtherException "connection refused")).
Proof.
  apply (proj1 (create_task_fails_only_on_exception
                  (hooks := TaskManager_hooks Examples.failing_llm)
                  "20250101_120000" Examples.half_done "list files in /tmp" ∅)).
  reflexivity.
Defined.

(** C8 as stated fails: on an outcome that is a security violation, and on
    one that is a timeout, the reflection of the source does not ask for
    replanning. *)
Lemma violation_and_timeout_do_not_replan :
  reflect Examples.source_hooks "security_violation" = Ok ("Step reflection", false)
  /\ reflect Examples.source_hooks "timeout" = Ok ("Step reflection", false).
Proof. split; reflexivity. Qed.

(** C8, amended: the reflection of the source never asks for replanning:
    [_needs_replanning] returns [False] on every reflection, so on every
    outcome, a security violation and a timeout as well as a plain error,
    the reflection is the same text and the signal is [False]. *)
Theorem source_reflection_never_replans (llm : string -> Context -> exc string) :
  (forall reflection,
      _needs_replanning (Hooks := TaskManager_hooks llm) reflection = Ok false)
  /\ (forall outcome,
        reflect (TaskManager_hooks llm) outcome = Ok ("Step reflection", false)).
Proof. split; reflexivity. Qed.

Lemma count_completed_cons (step : TaskStep) (steps : list TaskStep) :
  count_completed (step :: steps)
  = (if decide (is_completed step) then 1 else 0) + count_completed steps.
Proof.
  unfold count_completed. rewrite filter_cons.
  destruct (decide (is_completed step)); reflexivity.
Qed.

Lemma count_completed_le (steps : list TaskStep) :
  count_completed steps <= length steps.
Proof.
  induction steps as [|step steps IH]; [reflexivity|].
  rewrite count_completed_cons. simpl. destruct (decide _); lia.
Qed.

Lemma count_completed_zero (steps : list TaskStep) :
  count_completed steps = 0 <-> Forall (fun step => ~ is_completed step) steps.
Proof.
  induction steps as [|step steps IH]; [by split; [constructor|]|].
  rewrite count_completed_cons, Forall_cons.
  destruct (decide (is_completed step)) as [Hc|Hc]; simpl.
  - split; [discriminate | intros [Hn _]; contradiction].
  - rewrite IH. tauto.
Qed.

Lemma count_completed_all (steps : list TaskStep) :
  count_completed steps = length steps <-> Forall is_completed steps.
Proof.
  induction steps as [|step steps IH]; [by split; [constructor|]|].
  rewrite count_completed_cons, Forall_cons. simpl.
  pose proof (count_completed_le steps) as Hle.
  destruct (decide (is_completed step)) as [Hc|Hc].
  - rewrite <- IH. split; [intros H; split; [exact Hc | lia] | intros [_ ->]; lia].
  - split; [lia | intros [Hyes _]; contradiction].
Qed.

Lemma get_task_status_registered (self : TaskManager) (task_id : string)
    (steps : list TaskStep) :
  active_tasks self !! task_id = Some steps ->
  get_task_status self task_id = (self, Ok (status_from_steps steps)).
Proof.
  intros Hsteps. unfold get_task_status, status_from_steps. rewrite Hsteps.
  destruct steps as [|step rest]; [reflexivity|].
  set (steps := step :: rest).
  destruct (Nat.eqb_spec (count_completed steps) 0) as [Hz|Hz].
  - rewrite decide_True by (by apply count_completed_zero). reflexivity.
  - rewrite decide_False by (by rewrite <- count_completed_zero).
    destruct (Nat.eqb_spec (count_completed steps) (length steps)) as [Ha|Ha].
    + rewrite decide_True by (by apply count_completed_all). reflexivity.
    + rewrite decide_False by (by rewrite <- count_completed_all). reflexivity.
Qed.

(** C9: for a registered task [get_task_status] returns the status that the
    step list gives (pending when no step is completed, completed when all
    are, in progress otherwise) and leaves the task manager as it is; for
    an id that is not registered it raises the lookup error, and the task
    manager is as it was; asked again, it returns the same. *)
Theorem get_task_status_is_computed_and_pure (self : TaskManager) (task_id : string) :
  (forall steps, active_tasks self !! task_id = Some steps ->
     get_task_status self task_id = (self, Ok (status_from_steps steps)))
  /\ (active_tasks self !! task_id = None ->
      get_task_status self task_id = (self, Raise (not_found task_id)))
  /\ (get_task_status self task_id).1 = self
  /\ get_task_status (get_task_status self task_id).1 task_id
     = get_task_status self task_id.
Proof.
  assert (Hsame : (get_task_status self task_id).1 = self).
  { unfold get_task_status. destruct (active_tasks self !! task_id) as [[|step rest]|];
      [reflexivity| |reflexivity].
    destruct (Nat.eqb _ 0); [reflexivity|]. destruct (Nat.eqb _ _); reflexivity. }
  split; [apply get_task_status_registered|].
  split; [intros Hnone; unfold get_task_status; by rewrite Hnone|].
  split; [exact Hsame | by rewrite Hsame].
Qed.

Lemma get_task_status_is_computed_and_pure_witness :
  get_task_status Examples.half_done "t" = (Examples.half_done, Ok IN_PROGRESS)
  /\ get_task_status Examples.half_done "u" = (Examples.half_done, Raise (not_found "u")).
Proof.
  split.
  - apply (proj1 (get_task_status_is_computed_and_pure Examples.half_done "t")
             [Examples.done_step; Examples.todo_step]).
    reflexivity.
  - apply (proj1 (proj2 (get_task_status_is_computed_and_pure Examples.half_done "u"))).
    reflexivity.
Defined.

End TaskManager_properties.

(** * Further properties of [SystemCore] *)

Section SystemCore_history_and_outcomes.
Import System.

Lemma validate_paths_same_rules (self self' : SystemCore) (args : list string) :
  allowed_paths self' = allowed_paths self ->
  validate_paths self' args = validate_paths self args.
Proof.
  intros Hsame. induction args as [|arg rest IH]; [reflexivity|].
  simpl. unfold path_allowed. rewrite Hsame, IH. reflexivity.
Qed.

Lemma validate_same_rules (self self' : SystemCore) (command : string) :
  blocklist self' = blocklist self ->
  allowed_paths self' = allowed_paths self ->
  _validate_command self' command = _validate_command self command.
Proof.
  intros Hb Ha. unfold _validate_command, exc_bind.
  destruct (Shlex.split command) as [[|cmd0 args]|e]; [reflexivity| |reflexivity].
  rewrite Hb, (validate_paths_same_rules self self' args Ha). reflexivity.
Qed.

Lemma take_alter_last {A} (f : A -> A) (l : list A) (x : A) :
  take (length l) (alter f (length l) (l ++ [x])) = l.
Proof. by rewrite alter_last, take_app_length. Qed.

(** X2: [execute_command] never touches the security rules and never
    rewrites the past: the configuration, the blocklist, the allowed paths
    and the time limit of the object are what they were, the entries that
    the history held are still its first entries, unchanged and in order,
    and every command is validated afterwards as it was before. *)
Theorem execute_command_keeps_rules_and_past (os : OS) (now : Z) (self : SystemCore)
    (command : string) (context : option Context) :
  let self' := (execute_command os now self command context).1.1 in
  config self' = config self
  /\ blocklist self' = blocklist self
  /\ allowed_paths self' = allowed_paths self
  /\ max_runtime self' = max_runtime self
  /\ take (length (command_history self)) (command_history self') = command_history self
  /\ forall other, _validate_command self' other = _validate_command self other.
Proof.
  assert (Hframe :
    let self' := (execute_command os now self command context).1.1 in
    config self' = config self
    /\ blocklist self' = blocklist self
    /\ allowed_paths self' = allowed_paths self
    /\ max_runtime self' = max_runtime self
    /\ take (length (command_history self)) (command_history self') = command_history self).
  { unfold execute_command.
    destruct (_validate_command self command) as [u|e];
      [|simpl; by rewrite take_ge by lia].
    destruct (Shlex.split command) as [argv|e];
      [|simpl; by rewrite take_ge by lia].
    destruct (os argv); simpl; rewrite ?take_alter_last, ?take_app_length; by repeat split. }
  destruct Hframe as (Hc & Hb & Ha & Hm & Hh).
  repeat split; try assumption.
  intros other. by apply validate_same_rules.
Qed.





End SystemCore_history_and_outcomes.

Section SystemCore_validation.
Import System.

Lemma find_none_iff {A} (f : A -> bool) (l : list A) :
  List.find f l = None <-> forall x, In x l -> f x = false.
Proof.
  split; [intros H x; by apply find_none|].
  induction l as [|y l IH]; intros Hall; [reflexivity|].
  simpl. rewrite (Hall y) by (by left). apply IH. intros x Hx. apply Hall. by right.
Qed.

Lemma validate_paths_ok_iff (self : SystemCore) (args : list string) :
  validate_paths self args = Ok ()
  <-> forall arg, In arg args -> String.prefix "/" arg = true -> path_allowed self arg = true.
Proof.
  induction args as [|arg rest IH]; simpl; [by split|].
  destruct (String.prefix "/" arg) eqn:Habs.
  - destruct (path_allowed self arg) eqn:Hpa.
    + rewrite IH. split; [intros H a [<-|Ha]; auto | intros H a Ha; apply H; by right].
    + split; [discriminate|]. intros H.
      specialize (H arg (or_introl eq_refl) Habs). congruence.
  - rewrite IH. split; [intros H a [<-|Ha]; [congruence | auto] | intros H a Ha; apply H; by right].
Qed.

(** X5: [_validate_command] lets a command through exactly when the
    command splits into at least one token, the base name of the first
    token is not in the blocklist, none of the dangerous patterns matches
    the raw command, and every later token that begins with [/] has, as a
    path, the text of some allowed path as a prefix. Tokens that do not
    begin with [/], relative paths among them, are not looked at. *)
Theorem validation_accepts_exactly (self : SystemCore) (command : string) :
  _validate_command self command = Ok ()
  <-> exists cmd0 args,
        Shlex.split command = Ok (cmd0 :: args)
        /\ (Pathlib.name (Pathlib.Path cmd0) ∉ blocklist self)
        /\ (forall p, In p dangerous_patterns -> Re.search p.2 command = false)
        /\ (forall arg, In arg args -> String.prefix "/" arg = true ->
              exists allowed, allowed ∈ allowed_paths self
                /\ String.prefix allowed (Pathlib.str (Pathlib.Path arg)) = true).
Proof.
  unfold _validate_command, exc_bind.
  destruct (Shlex.split command) as [[|cmd0 args]|e].
  - split; [discriminate | intros (c & a & [=] & _)].
  - destruct (bool_decide_reflect (Pathlib.name (Pathlib.Path cmd0) ∈ blocklist self))
      as [Hin|Hout].
    { split; [discriminate|]. intros (c & a & [= <- <-] & Hno & _). contradiction. }
    destruct (List.find _ dangerous_patterns) as [p|] eqn:Hfind.
    { split; [discriminate|]. intros (c & a & [= <- <-] & _ & Hpat & _).
      apply find_some in Hfind as [Hp Hm]. rewrite (Hpat p Hp) in Hm. discriminate. }
    rewrite validate_paths_ok_iff. split.
    + intros Hpaths. exists cmd0, args. split; [reflexivity|]. split; [exact Hout|].
      split; [by apply find_none_iff|].
      intros arg Harg Habs. apply path_allowed_spec. auto.
    + intros (c & a & [= <- <-] & _ & _ & Hpaths) arg Harg Habs.
      apply path_allowed_spec. auto.
  - split; [discriminate | intros (c & a & [=] & _)].
Qed.

Lemma whitespace_has_no_token (input : string) :
  (forall c, In c (list_ascii_of_string input) -> Shlex.in_chars c Shlex.whitespace = true) ->
  Shlex.tokens (Shlex.Lexer Shlex.StSpace "" false Shlex.StSpace) input [] = Ok [].
Proof.
  induction input as [|c rest IH]; intros Hws; [reflexivity|].
  simpl Shlex.tokens. unfold Shlex.on_char. simpl Shlex.state.
  rewrite (Hws c) by (by left). simpl.
  apply IH. intros c' Hc'. apply Hws. by right.
Qed.

(** X6: a command that holds nothing but spaces, tabs, carriage returns
    and newlines, the empty command among them, is rejected as an empty
    command: no process is started, the object stays as it is, and the
    result is a [security_violation] with the text [Empty command]. *)
Theorem blank_command_is_rejected (os : OS) (now : Z) (self : SystemCore)
    (command : string) (context : option Context) :
  (forall c, In c (list_ascii_of_string command) -> Shlex.in_chars c Shlex.whitespace = true) ->
  execute_command os now self command context
  = (self, [], Result.Make "security_violation" None None None (Some "Empty command")).
Proof.
  intros Hws. unfold execute_command, _validate_command, Shlex.split, exc_bind.
  rewrite (whitespace_has_no_token command Hws). reflexivity.
Qed.

Lemma blank_command_is_rejected_witness :
  execute_command Examples.quiet_os 0 Examples.default_core "   " None
  = (Examples.default_core, [],
     Result.Make "security_violation" None None None (Some "Empty command")).
Proof.
  apply (blank_command_is_rejected Examples.quiet_os 0 Examples.default_core "   " None).
  intros c Hc. simpl in Hc. destruct Hc as [<-|[<-|[<-|[]]]]; reflexivity.
Defined.

End SystemCore_validation.

Section SystemCore_history_access.
Import System.

(** X7: with a limit above zero, [get_command_history] returns the latest
    entries of the history, in order: as many as the limit says, or all of
    them when the history is shorter. *)
Theorem history_limit_gives_latest (self : SystemCore) (limit : Z) :
  (0 < limit)%Z ->
  let recent := get_command_history self (Some limit) in
  length recent = Nat.min (Z.to_nat limit) (length (command_history self))
  /\ exists older, command_history self = older ++ recent.
Proof.
  intros Hpos. unfold get_command_history, Pylist.slice_from, Pylist.slice_start.
  destruct (Z.ltb_spec (- limit) 0) as [_|Hge]; [|lia].
  split.
  - rewrite length_drop. lia.
  - eexists. symmetry. apply take_drop.
Qed.

Lemma history_limit_gives_latest_witness :
  length (get_command_history
            (execute_command Examples.quiet_os 2
               (execute_command Examples.quiet_os 1 Examples.default_core "echo a" None).1.1
               "echo b" None).1.1
            (Some 1%Z))
  = Nat.min (Z.to_nat 1)
      (length (command_history
                 (execute_command Examples.quiet_os 2
                    (execute_command Examples.quiet_os 1 Examples.default_core
                       "echo a" None).1.1
                    "echo b" None).1.1)).
Proof.
  apply (history_limit_gives_latest
           (execute_command Examples.quiet_os 2
              (execute_command Examples.quiet_os 1 Examples.default_core "echo a" None).1.1
              "echo b" None).1.1
           1%Z).
  lia.
Defined.

(** X8: a limit of zero does not give an empty list: [get_command_history]
    then returns the whole history, as it does without a limit. A limit
    below zero gives the history without its first entries, as many as the
    limit is below zero. *)
Theorem history_limit_zero_or_less (self : SystemCore) (limit : Z) :
  (limit <= 0)%Z ->
  get_command_history self (Some limit)
  = drop (Z.to_nat (- limit)) (command_history self)
  /\ get_command_history self (Some 0%Z) = get_command_history self None.
Proof.
  assert (Hdrop : forall l, (l <= 0)%Z ->
            get_command_history self (Some l)
            = drop (Z.to_nat (- l)) (command_history self)).
  { intros l Hl.
    unfold get_command_history, Pylist.slice_from, Pylist.slice_start.
    destruct (Z.ltb_spec (- l) 0) as [Hlt|_]; [lia|].
    destruct (Z.le_gt_cases (- l) (Z.of_nat (length (command_history self))))
      as [Hin|Hout].
    - by rewrite Z.min_l by exact Hin.
    - rewrite Z.min_r by lia. rewrite Nat2Z.id.
      by rewrite !drop_ge by lia. }
  intros Hle. split; [by apply Hdrop|].
  by rewrite Hdrop.
Qed.

Lemma history_limit_zero_or_less_witness :
  get_command_history
    (execute_command Examples.quiet_os 1 Examples.default_core "echo a" None).1.1
    (Some 0%Z)
  = drop (Z.to_nat (- 0))
      (command_history
         (execute_command Examples.quiet_os 1 Examples.default_core "echo a" None).1.1).
Proof.
  apply (proj1 (history_limit_zero_or_less
                  (execute_command Examples.quiet_os 1 Examples.default_core
                     "echo a" None).1.1
                  0%Z (Z.le_refl 0))).
Defined.

(** The shape of what one [execute_command] asks and records. *)
Lemma execute_command_shape (os : OS) (now : Z) (self : SystemCore)
    (command : string) (context : option Context) :
  let run := execute_command os now self command context in
  (run.1.2 = [] /\ command_history run.1.1 = command_history self
   /\ exists e, _validate_command self command = Raise e /\ run.2 = on_exception e)
  \/ (exists argv r,
        _validate_command self command = Ok ()
        /\ Shlex.split command = Ok argv
        /\ (run.1.2 = [CreateSubprocessExec argv]
            \/ run.1.2 = [CreateSubprocessExec argv; SendSignal "SIGTERM"])
        /\ command_history run.1.1 = command_history self ++ [r]
        /\ CmdRecord.command r = command).
Proof.
  unfold execute_command.
  destruct (_validate_command self command) as [[]|e] eqn:Hv; [|left; eauto].
  destruct (validated_is_tokenized _ _ _ Hv) as [argv Hs]. rewrite Hs.
  right. exists argv.
  destruct (os argv); simpl; rewrite ?alter_last; eexists;
    (split; [reflexivity|]); (split; [reflexivity|]); (split; [auto|]);
    (split; [reflexivity|]); reflexivity.
Qed.

(** X9: [clear_command_history] forgets the history and nothing else: the
    configuration, the blocklist, the allowed paths and the time limit of
    the cleared object are those of the object, it returns an empty history
    under every limit, it validates every command as before, and after the
    next [execute_command] its history holds the one entry of that command
    when the command passes validation, and no entry when it does not. *)
Theorem clear_forgets_history_only (os : OS) (now : Z) (self : SystemCore)
    (command : string) (context : option Context) :
  let cleared := clear_command_history self in
  config cleared = config self
  /\ blocklist cleared = blocklist self
  /\ allowed_paths cleared = allowed_paths self
  /\ max_runtime cleared = max_runtime self
  /\ command_history cleared = []
  /\ (forall limit, get_command_history cleared limit = [])
  /\ (forall other, _validate_command cleared other = _validate_command self other)
  /\ match _validate_command self command with
     | Ok _ =>
         exists r, command_history (execute_command os now cleared command context).1.1 = [r]
                   /\ CmdRecord.command r = command
                   /\ CmdRecord.timestamp r = now
     | Raise _ =>
         command_history (execute_command os now cleared command context).1.1 = []
     end.
Proof.
  assert (Hsame : forall other,
             _validate_command (clear_command_history self) other
             = _validate_command self other).
  { intros other. by apply validate_same_rules. }
  do 5 (split; [reflexivity|]).
  split; [|split; [exact Hsame|]].
  - intros [limit|]; [|reflexivity].
    unfold get_command_history, Pylist.slice_from. simpl. by rewrite drop_nil.
  - rewrite <- (Hsame command). unfold execute_command.
    destruct (_validate_command (clear_command_history self) command) as [[]|e] eqn:Hv;
      [|reflexivity].
    destruct (validated_is_tokenized _ _ _ Hv) as [argv ->].
    destruct (os argv); cbn -[alter]; rewrite ?(alter_last _ []);
      eexists; (split; [reflexivity|]); split; reflexivity.
Qed.

End SystemCore_history_access.

Section SystemCore_status_check.
Import System.

Lemma cpu_probe_tokens :
  Shlex.split "top -bn1 | grep 'Cpu(s)'" = Ok ["top"; "-bn1"; "|"; "grep"; "Cpu(s)"].
Proof. vm_compute. reflexivity. Qed.

Lemma cpu_probe_pattern :
  List.find (fun p => Re.search p.2 "top -bn1 | grep 'Cpu(s)'") dangerous_patterns
  = Some ("[;&|]", [Re.OneOf [";"; "&"; "|"]%char]).
Proof. vm_compute. reflexivity. Qed.

(** The command that [check_system_status] uses to read the processor load
    holds a pipe, and no set of rules lets it through. *)
Lemma cpu_probe_rejected (self : SystemCore) :
  exists msg,
    _validate_command self "top -bn1 | grep 'Cpu(s)'" = Raise (SecurityViolation msg).
Proof.
  unfold _validate_command, exc_bind. rewrite cpu_probe_tokens.
  cbv beta iota. destruct (bool_decide _); [eauto|].
  rewrite cpu_probe_pattern. eauto.
Qed.

Lemma memory_probe_tokens : Shlex.split "free -m" = Ok ["free"; "-m"].
Proof. vm_compute. reflexivity. Qed.

Lemma disk_probe_tokens : Shlex.split "df -h" = Ok ["df"; "-h"].
Proof. vm_compute. reflexivity. Qed.

(** X10: [check_system_status] never reads the processor load: its command
    for that is rejected by the validation of [execute_command] under every
    set of rules, so [top] is never started and the [cpu] field of the
    report is the empty text, while the report still has status [success].
    The only processes it may start are [free -m] and [df -h], and it adds
    at most two entries to the history. *)
Theorem status_check_never_probes_cpu (os : OS) (now_cpu now_mem now_disk now : Z)
    (self : SystemCore) :
  let run := check_system_status os now_cpu now_mem now_disk now self in
  StatusReport.status run.2 = "success"
  /\ StatusReport.cpu run.2 = ""
  /\ StatusReport.timestamp run.2 = now
  /\ (forall e, e ∈ run.1.2 ->
        e = CreateSubprocessExec ["free"; "-m"]
        \/ e = CreateSubprocessExec ["df"; "-h"]
        \/ e = SendSignal "SIGTERM")
  /\ length (command_history run.1.1) <= length (command_history self) + 2.
Proof.
  unfold check_system_status.
  pose proof (execute_command_shape os now_cpu self "top -bn1 | grep 'Cpu(s)'" None) as H1.
  destruct (execute_command os now_cpu self "top -bn1 | grep 'Cpu(s)'" None)
    as [[self1 events1] cpu_info].
  pose proof (execute_command_shape os now_mem self1 "free -m" None) as H2.
  destruct (execute_command os now_mem self1 "free -m" None)
    as [[self2 events2] mem_info].
  pose proof (execute_command_shape os now_disk self2 "df -h" None) as H3.
  destruct (execute_command os now_disk self2 "df -h" None)
    as [[self3 events3] disk_info].
  cbn [fst snd] in *.
  destruct (cpu_probe_rejected self) as [msg Hcpu].
  destruct H1 as [(-> & Hh1 & e & He & ->)|(argv & r & Hval & _)]; [|congruence].
  rewrite Hcpu in He. injection He as <-.
  split; [reflexivity|]. split; [reflexivity|]. split; [reflexivity|].
  assert (Hev2 : forall e, e ∈ events2 ->
            e = CreateSubprocessExec ["free"; "-m"] \/ e = SendSignal "SIGTERM").
  { destruct H2 as [(-> & _)|(argv & r & _ & Hs & Hev & _)].
    - intros e He. destruct (not_elem_of_nil _ He).
    - rewrite memory_probe_tokens in Hs. injection Hs as <-.
      intros e He. destruct Hev as [->| ->];
        repeat (apply elem_of_cons in He as [->|He]; [auto|]);
        destruct (not_elem_of_nil _ He). }
  assert (Hev3 : forall e, e ∈ events3 ->
            e = CreateSubprocessExec ["df"; "-h"] \/ e = SendSignal "SIGTERM").
  { destruct H3 as [(-> & _)|(argv & r & _ & Hs & Hev & _)].
    - intros e He. destruct (not_elem_of_nil _ He).
    - rewrite disk_probe_tokens in Hs. injection Hs as <-.
      intros e He. destruct Hev as [->| ->];
        repeat (apply elem_of_cons in He as [->|He]; [auto|]);
        destruct (not_elem_of_nil _ He). }
  assert (Hlen2 : length (command_history self2) <= length (command_history self1) + 1).
  { destruct H2 as [(_ & -> & _)|(argv & r & _ & _ & _ & -> & _)];
      [apply Nat.le_add_r | rewrite length_app; apply Nat.le_refl]. }
  assert (Hlen3 : length (command_history self3) <= length (command_history self2) + 1).
  { destruct H3 as [(_ & -> & _)|(argv & r & _ & _ & _ & -> & _)];
      [apply Nat.le_add_r | rewrite length_app; apply Nat.le_refl]. }
  clear H2 H3 Hcpu.
  split.
  - intros e He. cbn [app] in He. apply elem_of_app in He as [He|He].
    + destruct (Hev2 e He) as [->| ->]; auto.
    + destruct (Hev3 e He) as [->| ->]; auto.
  - rewrite <- Hh1. lia.
Qed.

End SystemCore_status_check.

(** * Further properties of [TaskManager] *)

Section TaskManager_store.
Import Planner Notions.

(** X11: the id of a task is the clock reading to the second, so two tasks
    created while the clock shows the same second get the same id: the
    second creation adds no task to the store, it replaces the plan that
    the first one registered. *)
Theorem same_second_same_task_id {hooks : Hooks} (now : string)
    (self self1 self2 : TaskManager) (description1 description2 : string)
    (context1 context2 : Context) (id1 id2 : string) :
  create_task now self description1 context1 = (self1, Ok id1) ->
  create_task now self1 description2 context2 = (self2, Ok id2) ->
  id1 = id2
  /\ (forall task_id, is_Some (active_tasks self2 !! task_id)
                      <-> is_Some (active_tasks self1 !! task_id))
  /\ exists initial_thought plan,
       _generate_thought description2 context2 = Ok initial_thought
       /\ _create_plan initial_thought context2 = Ok plan
       /\ active_tasks self2 !! id1 = Some plan.
Proof.
  unfold create_task, exc_bind. intros H1 H2.
  destruct (_generate_thought description1 context1) as [t1|]; [|discriminate].
  destruct (_create_plan t1 context1) as [plan1|]; [|discriminate].
  destruct (_generate_thought description2 context2) as [t2|]; [|discriminate].
  destruct (_create_plan t2 context2) as [plan2|] eqn:Hplan2; [|discriminate].
  injection H1 as <- <-. injection H2 as <- <-.
  split; [reflexivity|]. split.
  - intros task_id. simpl.
    destruct (decide (task_id = _generate_task_id now)) as [->|Hne].
    + rewrite !lookup_insert_eq. split; eauto.
    + by rewrite (lookup_insert_ne _ _ _ plan2).
  - exists t2, plan2. split; [reflexivity|]. split; [exact Hplan2|].
    apply lookup_insert_eq.
Qed.

Lemma same_second_same_task_id_witness :
  "task_20250101_120000" = "task_20250101_120000"
  /\ (forall task_id,
        is_Some (active_tasks
                   (set_task (set_task Examples.no_tasks "task_20250101_120000" [])
                      "task_20250101_120000" []) !! task_id)
        <-> is_Some (active_tasks (set_task Examples.no_tasks "task_20250101_120000" [])
                       !! task_id))
  /\ exists initial_thought plan,
       Examples.obliging_llm "water the plants" ∅ = Ok initial_thought
       /\ Ok [] = Ok plan
       /\ active_tasks
            (set_task (set_task Examples.no_tasks "task_20250101_120000" [])
               "task_20250101_120000" []) !! "task_20250101_120000" = Some plan.
Proof.
  exact (same_second_same_task_id (hooks := Examples.source_hooks) "20250101_120000"
           Examples.no_tasks _ _ "list files in /tmp" "water the plants" ∅ ∅ _ _
           eq_refl eq_refl).
Defined.

(** X12: [execute_task] registers no task and removes none: when it
    returns, the ids that are registered are those that were registered
    before. It raises for an id that is not registered and for no other:
    for such an id it raises the lookup error at once, whatever the number
    of loop turns it is given, and the store is as it was; for a registered
    id what it returns is a dictionary, with status [success] or
    [failed]. *)
Theorem execute_task_keeps_the_ids {hooks : Hooks} (self : TaskManager)
    (task_id : string) :
  (forall fuel self' r,
      execute_task fuel self task_id = Some (self', r) ->
      forall other, is_Some (active_tasks self' !! other)
                    <-> is_Some (active_tasks self !! other))
  /\ (active_tasks self !! task_id = None ->
      forall fuel, execute_task fuel self task_id = Some (self, Raise (not_found task_id)))
  /\ (forall steps, active_tasks self !! task_id = Some steps ->
      forall fuel self' r,
        execute_task fuel self task_id = Some (self', r) ->
        exists res, r = Ok res
                    /\ (TaskResult.status res = "success"
                        \/ TaskResult.status res = "failed")).
Proof.
  unfold execute_task. split; [|split].
  - intros fuel self' r Hrun other.
    destruct (active_tasks self !! task_id) as [steps|] eqn:Hsteps.
    + assert (Hset : exists steps', self' = set_task self task_id steps').
      { destruct (run_steps fuel task_id 0 steps []) as [[steps' [results|e]]|];
          [| |discriminate]; injection Hrun as <- <-; eauto. }
      destruct Hset as [steps' ->]. simpl.
      destruct (decide (other = task_id)) as [->|Hne].
      * rewrite lookup_insert_eq, Hsteps. split; eauto.
      * by rewrite lookup_insert_ne.
    + by injection Hrun as <- <-.
  - intros -> fuel. reflexivity.
  - intros steps -> fuel self' r Hrun.
    destruct (run_steps fuel task_id 0 steps []) as [[steps' [results|e]]|];
      [| |discriminate]; injection Hrun as <- <-; eexists; (split; [reflexivity|]);
      simpl; auto.
Qed.

Lemma execute_task_keeps_the_ids_witness :
  (forall other,
      is_Some (active_tasks
                 (set_task Examples.half_done "t"
                    [processed Examples.done_step "Step execution result" "Step reflection";
                     processed Examples.todo_step "Step execution result" "Step reflection"])
                 !! other)
      <-> is_Some (active_tasks Examples.half_done !! other))
  /\ execute_task (hooks := Examples.source_hooks) 0 Examples.half_done "u"
     = Some (Examples.half_done, Raise (not_found "u")).
Proof.
  split.
  - exact (proj1 (execute_task_keeps_the_ids (hooks := Examples.source_hooks)
                    Examples.half_done "t") 3 _ _ eq_refl).
  - exact (proj1 (proj2 (execute_task_keeps_the_ids (hooks := Examples.source_hooks)
                           Examples.half_done "u")) eq_refl 0).
Defined.

End TaskManager_store.

Section TaskManager_runs.
Import Planner Notions.

Lemma keeps_plan_refl (steps : list TaskStep) : keeps_plan steps steps.
Proof. intros i step Hi. eauto. Qed.

Lemma keeps_plan_trans (l1 l2 l3 : list TaskStep) :
  keeps_plan l1 l2 -> keeps_plan l2 l3 -> keeps_plan l1 l3.
Proof.
  intros H12 H23 i s1 H1.
  destruct (H12 i s1 H1) as (s2 & H2 & Ha2 & Ht2).
  destruct (H23 i s2 H2) as (s3 & H3 & Ha3 & Ht3).
  exists s3. split; [exact H3|]. split; congruence.
Qed.

Lemma keeps_plan_processed (steps : list TaskStep) (i : nat)
    (step : TaskStep) (result refl : string) :
  steps !! i = Some step ->
  keeps_plan steps (<[i := processed step result refl]> steps).
Proof.
  intros Hi j s Hj. destruct (decide (i = j)) as [<-|Hne].
  - rewrite list_lookup_insert_eq by (by eapply lookup_lt_Some).
    eexists. split; [reflexivity|]. simpl. split; congruence.
  - rewrite list_lookup_insert_ne by exact Hne. eauto.
Qed.

Lemma keeps_plan_extended (steps new_plan : list TaskStep) :
  keeps_plan steps (steps ++ new_plan).
Proof. intros i s Hi. exists s. split; [by apply lookup_app_l_Some | auto]. Qed.

Lemma run_steps_keeps_plan {hooks : Hooks} (fuel : nat) (task_id : string) :
  forall (i : nat) (steps : list TaskStep) (results : list StepResult.t)
         (steps' : list TaskStep) (r : exc (list StepResult.t)),
    run_steps fuel task_id i steps results = Some (steps', r) ->
    keeps_plan steps steps'.
Proof.
  induction fuel as [|fuel IH]; intros i steps results steps' r Hrun; [discriminate|].
  simpl in Hrun.
  destruct (steps !! i) as [step|] eqn:Hstep;
    [|injection Hrun as <- <-; apply keeps_plan_refl].
  destruct (_execute_step step) as [result|];
    [|injection Hrun as <- <-; apply keeps_plan_refl].
  destruct (_reflect_on_step result) as [refl|];
    [|injection Hrun as <- <-; apply keeps_plan_refl].
  pose proof (keeps_plan_processed steps i step result refl Hstep) as Hp.
  destruct (_needs_replanning refl) as [[|]|]; [| |injection Hrun as <- <-; exact Hp].
  - destruct (_replan_task _ _) as [new_plan|]; [|injection Hrun as <- <-; exact Hp].
    eapply keeps_plan_trans; [exact Hp|].
    eapply keeps_plan_trans; [apply keeps_plan_extended|].
    eapply IH, Hrun.
  - eapply keeps_plan_trans; [exact Hp|]. eapply IH, Hrun.
Qed.

(** X13: however [execute_task] ends, with [success] or with [failed], the
    task keeps its plan: every step that the list held is still at its
    position, with the action and the thought it had; steps are added at
    the end only, none is removed and none is moved. *)
Theorem execute_task_keeps_the_plan {hooks : Hooks} (fuel : nat)
    (self self' : TaskManager) (task_id : string) (steps : list TaskStep)
    (r : exc TaskResult.t) :
  active_tasks self !! task_id = Some steps ->
  execute_task fuel self task_id = Some (self', r) ->
  exists steps',
    active_tasks self' !! task_id = Some steps'
    /\ length steps <= length steps'
    /\ forall i step, steps !! i = Some step ->
         exists step', steps' !! i = Some step'
                       /\ action step' = action step /\ thought step' = thought step.
Proof.
  unfold execute_task. intros Hsteps Hrun. rewrite Hsteps in Hrun.
  destruct (run_steps fuel task_id 0 steps []) as [[steps' res]|] eqn:Hloop;
    [|discriminate].
  pose proof (run_steps_keeps_plan _ _ _ _ _ _ _ Hloop) as Hkeep.
  exists steps'. split.
  - destruct res; injection Hrun as <- <-; apply lookup_insert_eq.
  - split; [|exact Hkeep].
    destruct (decide (length steps <= length steps')) as [Hle|Hgt]; [exact Hle|].
    destruct (lookup_lt_is_Some_2 steps (length steps')) as [s Hs]; [lia|].
    destruct (Hkeep _ _ Hs) as (s' & Hs' & _).
    apply lookup_lt_Some in Hs'. lia.
Qed.

Lemma execute_task_keeps_the_plan_witness :
  exists steps',
    active_tasks
      (set_task Examples.half_done "t"
         [processed Examples.done_step "Step execution result" "Step reflection";
          processed Examples.todo_step "Step execution result" "Step reflection"])
      !! "t" = Some steps'
    /\ length [Examples.done_step; Examples.todo_step] <= length steps'
    /\ forall i step, [Examples.done_step; Examples.todo_step] !! i = Some step ->
         exists step', steps' !! i = Some step'
                       /\ action step' = action step /\ thought step' = thought step.
Proof.
  exact (execute_task_keeps_the_plan (hooks := Examples.source_hooks) 3
           Examples.half_done _ "t" [Examples.done_step; Examples.todo_step] _
           eq_refl eq_refl).
Defined.

(** X14: after [execute_task] has returned [success], [get_task_status]
    reports the task as completed when it has at least one step, and as
    pending when it has none: a task without steps never reads as
    completed, however often it is run. *)
Theorem status_after_successful_run {hooks : Hooks} (fuel : nat)
    (self self' : TaskManager) (task_id : string) (res : TaskResult.t) :
  execute_task fuel self task_id = Some (self', Ok res) ->
  TaskResult.status res = "success" ->
  exists steps',
    active_tasks self' !! task_id = Some steps'
    /\ get_task_status self' task_id
       = (self', Ok (match steps' with [] => PENDING | _ => COMPLETED end)).
Proof.
  unfold execute_task. intros Hrun Hstatus.
  destruct (active_tasks self !! task_id) as [steps|]; [|discriminate].
  destruct (run_steps fuel task_id 0 steps []) as [[steps' [results|e]]|] eqn:Hloop;
    [| |discriminate]; injection Hrun as <- <-; [|discriminate].
  assert (Hdone : Forall is_completed steps').
  { eapply records_completed, run_steps_records; [| |exact Hloop]; [lia | constructor]. }
  exists steps'. split; [apply lookup_insert_eq|].
  unfold get_task_status. simpl. rewrite lookup_insert_eq.
  destruct steps' as [|step rest]; [reflexivity|].
  apply count_completed_all in Hdone. rewrite Hdone.
  simpl length. rewrite Nat.eqb_refl. reflexivity.
Qed.

Lemma status_after_successful_run_witness :
  exists steps',
    active_tasks (set_task (set_task Examples.no_tasks "e" []) "e" []) !! "e" = Some steps'
    /\ get_task_status (set_task (set_task Examples.no_tasks "e" []) "e" []) "e"
       = (set_task (set_task Examples.no_tasks "e" []) "e" [],
          Ok (match steps' with [] => PENDING | _ => COMPLETED end)).
Proof.
  exact (status_after_successful_run (hooks := Examples.source_hooks) 1
           (set_task Examples.no_tasks "e" []) _ "e" _ eq_refl eq_refl).
Defined.

(** X15: with the methods of the source, a task that [create_task]
    registers never has a step: whatever the language model answered,
    [execute_task] on the new task returns [success] with an empty list of
    results at its first loop turn and leaves the store as it is, and
    [get_task_status] reports the task as pending, before the run and after
    it. *)
Theorem shipped_task_stays_pending (llm : string -> Context -> exc string)
    (now : string) (self : TaskManager) (task_description : string)
    (context : Context) (initial_thought : string) (fuel : nat) :
  llm task_description context = Ok initial_thought ->
  let created :=
    (create_task (hooks := TaskManager_hooks llm) now self task_description context).1 in
  let task_id := _generate_task_id now in
  (create_task (hooks := TaskManager_hooks llm) now self task_description context).2
  = Ok task_id
  /\ active_tasks created !! task_id = Some []
  /\ execute_task (hooks := TaskManager_hooks llm) (S fuel) created task_id
     = Some (created, Ok (TaskResult.Make "success" (Some []) None))
  /\ get_task_status created task_id = (created, Ok PENDING).
Proof.
  intros Hllm. unfold create_task, exc_bind. simpl. rewrite Hllm. simpl.
  split; [reflexivity|]. split; [apply lookup_insert_eq|]. split.
  - unfold execute_task. simpl. rewrite lookup_insert_eq. simpl.
    unfold set_task. simpl. by rewrite insert_insert_eq.
  - unfold get_task_status. simpl. by rewrite lookup_insert_eq.
Qed.

Lemma shipped_task_stays_pending_witness :
  get_task_status
    (create_task (hooks := Examples.source_hooks) "20250101_120000" Examples.half_done
       "list files in /tmp" ∅).1
    "task_20250101_120000"
  = ((create_task (hooks := Examples.source_hooks) "20250101_120000" Examples.half_done
        "list files in /tmp" ∅).1,
     Ok PENDING).
Proof.
  apply (shipped_task_stays_pending Examples.obliging_llm "20250101_120000"
           Examples.half_done "list files in /tmp" ∅ "Think step by step" 0 eq_refl).
Defined.

End TaskManager_runs.

(** * Properties of the request handlers *)

Section Api_properties.
Import Planner Notions Api.

Lemma status_from_steps_values (steps : list TaskStep) :
  In (status_from_steps steps) [PENDING; IN_PROGRESS; COMPLETED]
  /\ (status_from_steps steps = COMPLETED <-> steps <> [] /\ Forall is_completed steps).
Proof.
  unfold status_from_steps.
  destruct (decide (Forall (fun step => ~ is_completed step) steps)) as [Hnone|Hsome].
  - split; [simpl; tauto|]. split; [discriminate|].
    intros [Hne Hall]. destruct steps as [|step rest]; [contradiction|].
    apply Forall_cons in Hnone as [Hno _]. apply Forall_cons in Hall as [Hyes _].
    contradiction.
  - destruct (decide (Forall is_completed steps)) as [Hall|Hnot].
    + split; [simpl; tauto|]. split; [|reflexivity]. intros _. split; [|exact Hall].
      intros ->. apply Hsome. constructor.
    + split; [simpl; tauto|]. split; [discriminate | intros [_ Hall]; contradiction].
Qed.

(** X16: [GET /tasks/{task_id}] answers 404 exactly for an id that is not
    registered and never answers 500; for a registered task the status it
    reports is one of [pending], [in_progress] and [completed], never
    [failed] or [blocked], and its [completed] flag is set exactly when the
    task has steps and all of them are completed. The handler leaves the
    planner as it is. *)
Theorem get_task_answers (planner : TaskManager) (task_id : string) :
  (get_task planner task_id).1 = planner
  /\ match active_tasks planner !! task_id with
     | None =>
         (get_task planner task_id).2
         = HTTPException 404 ("Task " +:+ task_id +:+ " not found")
     | Some steps =>
         exists st,
           (get_task planner task_id).2
           = Respond (TaskInfo.Make (TaskStatus_value st) task_id
                        (bool_decide (st = COMPLETED)))
           /\ In st [PENDING; IN_PROGRESS; COMPLETED]
           /\ (st = COMPLETED <-> steps <> [] /\ Forall is_completed steps)
     end.
Proof.
  unfold get_task.
  destruct (active_tasks planner !! task_id) as [steps|] eqn:Hsteps.
  - rewrite (get_task_status_registered planner task_id steps Hsteps).
    split; [reflexivity|]. exists (status_from_steps steps).
    split; [reflexivity|]. apply status_from_steps_values.
  - unfold get_task_status. rewrite Hsteps. split; reflexivity.
Qed.

(** X17: when planning fails, because the language model or the plan
    creation raises, [POST /chat] answers 500 with the text of that
    exception; no task is registered, and after reading the input no other
    component is called: nothing is stored in memory and the persona is not
    adapted. *)
Theorem chat_reports_planning_failure {hooks : Hooks} (fuel : nat) (now : string)
    (planner : TaskManager) (request : ChatRequest.t) (e : exn) :
  (create_task now planner (ChatRequest.message request)
     (ChatRequest.context request)).2 = Raise e ->
  chat fuel now planner request
  = Some (planner, [ProcessInput (ChatRequest.message request)],
          HTTPException 500 (exn_str e)).
Proof.
  unfold chat, create_task, exc_bind.
  destruct (_generate_thought _ _) as [t|e1]; [|by intros [= <-]].
  destruct (_create_plan t _) as [plan|e2]; [discriminate | by intros [= <-]].
Qed.

Lemma chat_reports_planning_failure_witness :
  chat (hooks := TaskManager_hooks Examples.failing_llm) 1 "20250101_120000"
    Examples.half_done (ChatRequest.Make "list files in /tmp" ∅)
  = Some (Examples.half_done, [ProcessInput "list files in /tmp"],
          HTTPException 500 "connection refused").
Proof.
  apply (chat_reports_planning_failure (hooks := TaskManager_hooks Examples.failing_llm) 1
           "20250101_120000" Examples.half_done (ChatRequest.Make "list files in /tmp" ∅)
           (OtherException "connection refused")).
  reflexivity.
Defined.

(** X18: when the run of the new task fails, [execute_task] returns a
    dictionary without results, and [POST /chat] answers 500 with the text
    of the [KeyError] for the key [results]; the text of the exception that
    made the run fail does not reach the client. The task stays registered,
    nothing is stored in memory and the persona is not adapted. *)
Theorem chat_hides_run_failure {hooks : Hooks} (fuel : nat) (now : string)
    (planner planner1 planner2 : TaskManager) (request : ChatRequest.t)
    (task_id : string) (res : TaskResult.t) :
  create_task now planner (ChatRequest.message request) (ChatRequest.context request)
  = (planner1, Ok task_id) ->
  execute_task fuel planner1 task_id = Some (planner2, Ok res) ->
  TaskResult.status res = "failed" ->
  chat fuel now planner request
  = Some (planner2, [ProcessInput (ChatRequest.message request)],
          HTTPException 500 "'results'")
  /\ is_Some (active_tasks planner2 !! task_id).
Proof.
  intros Hcreate Hrun Hfailed. unfold chat. rewrite Hcreate, Hrun.
  unfold execute_task in Hrun.
  destruct (active_tasks planner1 !! task_id) as [steps|]; [|discriminate].
  destruct (run_steps fuel task_id 0 steps []) as [[steps' [results|e]]|];
    [| |discriminate]; injection Hrun as <- <-; [discriminate|].
  split; [reflexivity|]. simpl. rewrite lookup_insert_eq. eauto.
Qed.

Lemma chat_hides_run_failure_witness :
  chat (hooks := Examples.broken_hooks) 2 "20250101_120000" Examples.no_tasks
    (ChatRequest.Make "check the disk" ∅)
  = Some (set_task (set_task Examples.no_tasks "task_20250101_120000" [Examples.todo_step])
            "task_20250101_120000" [Examples.todo_step],
          [ProcessInput "check the disk"], HTTPException 500 "'results'")
  /\ is_Some (active_tasks
                (set_task
                   (set_task Examples.no_tasks "task_20250101_120000" [Examples.todo_step])
                   "task_20250101_120000" [Examples.todo_step])
                !! "task_20250101_120000").
Proof.
  exact (chat_hides_run_failure (hooks := Examples.broken_hooks) 2 "20250101_120000"
           Examples.no_tasks _ _ (ChatRequest.Make "check the disk" ∅) _
           (TaskResult.Make "failed" None (Some "disk unreachable"))
           eq_refl eq_refl eq_refl).
Defined.

(** X19: when [POST /chat] answers with a response, the task it names is
    registered with all its steps completed, and the text of the response
    is the observation that the last step of the task carries; for a task
    without steps it is the fixed text [Task completed successfully]. *)
Theorem chat_reply_is_last_observation {hooks : Hooks} (fuel : nat) (now : string)
    (planner planner' : TaskManager) (request : ChatRequest.t) (calls : list call)
    (reply : ChatResponse.t) :
  chat fuel now planner request = Some (planner', calls, Respond reply) ->
  exists task_id steps',
    ChatResponse.task_id reply = Some task_id
    /\ active_tasks planner' !! task_id = Some steps'
    /\ Forall is_completed steps'
    /\ match last steps' with
       | Some step => observation step = Some (ChatResponse.response reply)
       | None => ChatResponse.response reply = "Task completed successfully"
       end.
Proof.
  unfold chat. intros Hchat.
  destruct (create_task now planner _ _) as [planner1 [task_id|e]]; [|discriminate].
  unfold execute_task in Hchat.
  destruct (active_tasks planner1 !! task_id) as [steps|]; [|discriminate].
  destruct (run_steps fuel task_id 0 steps []) as [[steps' [results|e]]|] eqn:Hloop;
    [| |discriminate]; simpl in Hchat; [|discriminate].
  injection Hchat as <- _ <-.
  assert (Hrec : Forall2 records results steps').
  { eapply run_steps_records; [| |exact Hloop]; [lia | constructor]. }
  exists task_id, steps'. split; [reflexivity|].
  split; [apply lookup_insert_eq|]. split; [by eapply records_completed|].
  pose proof (Forall2_length _ _ _ Hrec) as Hlen.
  rewrite !last_lookup, <- Hlen. simpl.
  destruct (results !! pred (length results)) as [r|] eqn:Hr.
  - destruct (Forall2_lookup_l _ _ _ _ _ Hrec Hr) as (step & -> & Hstep).
    apply Hstep.
  - destruct (steps' !! pred (length results)) as [step|] eqn:Hs; [|reflexivity].
    destruct (Forall2_lookup_r _ _ _ _ _ Hrec Hs) as (r & Hr' & _). congruence.
Qed.

Lemma chat_reply_is_last_observation_witness :
  exists task_id steps',
    Some "task_20250101_120000" = Some task_id
    /\ active_tasks
         (set_task
            (set_task Examples.no_tasks "task_20250101_120000"
               [Examples.done_step; Examples.todo_step])
            "task_20250101_120000"
            [processed Examples.done_step
               "ls /tmp" "Step reflection";
             processed Examples.todo_step
               "df -h" "Step reflection"])
         !! task_id = Some steps'
    /\ Forall is_completed steps'
    /\ match last steps' with
       | Some step => observation step = Some "df -h"
       | None => "df -h" = "Task completed successfully"
       end.
Proof.
  exact (chat_reply_is_last_observation (hooks := Examples.echo_hooks) 3 "20250101_120000"
           Examples.no_tasks _ (ChatRequest.Make "look at the disk" ∅) _
           (ChatResponse.Make "df -h" (Some "task_20250101_120000") ∅ "success")
           eq_refl).
Defined.

(** X20: with the methods of the source, [POST /chat] runs no step:
    whenever the language model answers, the handler registers a task
    without steps and responds with the fixed text
    [Task completed successfully], whatever the message asked for. *)
Theorem shipped_chat_runs_nothing (llm : string -> Context -> exc string)
    (fuel : nat) (now : string) (planner : TaskManager) (request : ChatRequest.t)
    (initial_thought : string) :
  llm (ChatRequest.message request) (ChatRequest.context request) = Ok initial_thought ->
  exists planner' calls,
    chat (hooks := TaskManager_hooks llm) (S fuel) now planner request
    = Some (planner', calls,
            Respond (ChatResponse.Make "Task completed successfully"
                       (Some (_generate_task_id now)) (ChatRequest.context request)
                       "success"))
    /\ active_tasks planner' !! _generate_task_id now = Some [].
Proof.
  intros Hllm. unfold chat, create_task, exc_bind. simpl. rewrite Hllm. simpl.
  unfold execute_task. simpl. rewrite lookup_insert_eq. simpl.
  do 2 eexists. split; [reflexivity|]. simpl. apply lookup_insert_eq.
Qed.

Lemma shipped_chat_runs_nothing_witness :
  exists planner' calls,
    chat (hooks := TaskManager_hooks Examples.obliging_llm) 1 "20250101_120000"
      Examples.half_done (ChatRequest.Make "rm -rf / ; echo done" ∅)
    = Some (planner', calls,
            Respond (ChatResponse.Make "Task completed successfully"
                       (Some (_generate_task_id "20250101_120000")) ∅ "success"))
    /\ active_tasks planner' !! _generate_task_id "20250101_120000" = Some [].
Proof.
  exact (shipped_chat_runs_nothing Examples.obliging_llm 0 "20250101_120000"
           Examples.half_done (ChatRequest.Make "rm -rf / ; echo done" ∅)
           "Think step by step" eq_refl).
Defined.

End Api_properties.

(** * Properties of [MemoryCore.store] *)

Section Memory_properties.
Import Memory.

Lemma known_tier (tier : string) :
  existsb (String.eqb tier) tiers = true <-> In tier tiers.
Proof.
  rewrite existsb_exists. split.
  - intros (t & Hin & ->%String.eqb_eq). exact Hin.
  - intros Hin. exists tier. split; [exact Hin | apply String.eqb_refl].
Qed.

(** The metadata that [store] gives with a document for the middle term:
    the context, when one with at least one character is given. *)
Lemma store_metadata (context : option string) :
  match context with
  | Some c => if Shlex.nonempty c then {[ "context" := c ]} else ∅
  | None => ∅
  end
  = (match context with
     | Some (String a rest) => {[ "context" := String a rest ]}
     | _ => ∅
     end : gmap string string).
Proof. by destruct context as [[|a rest]|]. Qed.

(** X21: [store] raises exactly in two cases, and then asks nothing of the
    stores behind it: for an empty dictionary, whatever the tier, and for a
    tier that is none of [short_term], [mid_term] and [long_term]. In every
    other case it returns a boolean: what the serialization or a store
    raises comes back as [False]. For the short term it returns [True]
    exactly when the data was serialized, the configuration holds a time to
    live, and the store took the entry under the key of the clock reading,
    and it asks the store only when the first two hold. For the middle term
    it returns [True] exactly when the data was serialized and the
    collection took the document, with the context as its metadata when a
    context with at least one character is given and with none otherwise,
    and it asks the collection only when the data was serialized. For the
    long term it returns [True] without a request to any store. *)
Theorem store_raises_only_on_bad_arguments (backend : Backend) (now : string)
    (self : MemoryCore) (data : Data) (tier : string) (context : option string) :
  let run := store backend now self data tier context in
  let metadata : gmap string string :=
    match context with
    | Some (String a rest) => {[ "context" := String a rest ]}
    | _ => ∅
    end in
  (data = ∅ -> run = ([], Raise (ValueError "Cannot store empty data")))
  /\ (data <> ∅ -> ~ In tier tiers ->
      run = ([], Raise (ValueError ("Invalid memory tier: " +:+ tier))))
  /\ (data <> ∅ -> In tier tiers -> exists stored, run.2 = Ok stored)
  /\ (data <> ∅ -> tier = "short_term" ->
      (run.2 = Ok true <->
       exists value ttl,
         json_dumps backend data = Ok value
         /\ short_term_ttl self = Some ttl
         /\ serve backend (RedisSet ("mem:" +:+ now) value ttl) = Ok ())
      /\ run.1 = match json_dumps backend data, short_term_ttl self with
                 | Ok value, Some ttl => [RedisSet ("mem:" +:+ now) value ttl]
                 | _, _ => []
                 end)
  /\ (data <> ∅ -> tier = "mid_term" ->
      (run.2 = Ok true <->
       exists document,
         json_dumps backend data = Ok document
         /\ serve backend (ChromaAdd document metadata ("mid:" +:+ now)) = Ok ())
      /\ run.1 = match json_dumps backend data with
                 | Ok document => [ChromaAdd document metadata ("mid:" +:+ now)]
                 | Raise _ => []
                 end)
  /\ (data <> ∅ -> tier = "long_term" -> run = ([], Ok true)).
Proof.
  unfold store. split; [|split; [|split; [|split; [|split]]]].
  - intros ->. by rewrite decide_True.
  - intros Hdata Htier. rewrite decide_False by exact Hdata.
    destruct (existsb (String.eqb tier) tiers) eqn:Hk; [|reflexivity].
    apply known_tier in Hk. contradiction.
  - intros Hdata Htier. rewrite decide_False by exact Hdata.
    apply known_tier in Htier. rewrite Htier. simpl.
    destruct (store_in_tier backend now self data tier context) as [reqs [stored|e]];
      eauto.
  - intros Hdata ->. rewrite decide_False by exact Hdata.
    unfold store_in_tier. simpl.
    destruct (json_dumps backend data) as [value|e]; simpl.
    + destruct (short_term_ttl self) as [ttl|]; simpl.
      * destruct (serve backend (RedisSet ("mem:" +:+ now) value ttl)) as [[]|e] eqn:Hs;
          simpl.
        -- split; [|reflexivity]. split; [intros _; eauto | reflexivity].
        -- split; [|reflexivity]. split; [discriminate|].
           intros (v & t & [= <-] & [= <-] & Hok). congruence.
      * split; [|reflexivity]. split; [discriminate|].
        intros (v & t & _ & Hno & _). discriminate.
    + split; [|reflexivity]. split; [discriminate|].
      intros (v & t & Hno & _). discriminate.
  - intros Hdata ->. rewrite decide_False by exact Hdata.
    unfold store_in_tier. cbn [tiers existsb String.eqb Ascii.eqb Bool.eqb negb orb andb].
    rewrite (store_metadata context).
    set (metadata := match context with
                     | Some (String a rest) => {[ "context" := String a rest ]}
                     | _ => ∅
                     end : gmap string string).
    destruct (json_dumps backend data) as [document|e]; cbn [fst snd].
    + destruct (serve backend (ChromaAdd document metadata ("mid:" +:+ now)))
        as [[]|e] eqn:Hs; cbn [fst snd].
      * split; [|reflexivity]. split; [intros _; eauto | reflexivity].
      * split; [|reflexivity]. split; [discriminate|].
        intros (d & [= <-] & Hok). congruence.
    + split; [|reflexivity]. split; [discriminate|].
      intros (d & Hno & _). discriminate.
  - intros Hdata ->. rewrite decide_False by exact Hdata. reflexivity.
Qed.

Lemma store_raises_only_on_bad_arguments_witness :
  store (MkBackend (fun _ => Ok "{}") (fun _ => Ok ())) "2025-01-01T12:00:00"
    (MkMemoryCore (Some 1800%Z)) ∅ "short_term" None
  = ([], Raise (ValueError "Cannot store empty data")).
Proof.
  apply (proj1 (store_raises_only_on_bad_arguments
                  (MkBackend (fun _ => Ok "{}") (fun _ => Ok ())) "2025-01-01T12:00:00"
                  (MkMemoryCore (Some 1800%Z)) ∅ "short_term" None)).
  reflexivity.
Defined.

End Memory_properties.

(** * Properties of the conversations of [InputOutputManager] *)

Section Conversation_properties.
Import IOManager.

(** X22: a message added to a conversation is read back as the last
    message of its history, after the messages that were there, with the
    clock reading under the key [timestamp] in place of any timestamp the
    message brought; the other conversations are as they were. For a
    conversation that does not exist, adding raises the lookup error and
    changes nothing, and reading raises it too. *)
Theorem conversation_add_then_get (now : string) (self : InputOutputManager)
    (conversation_id : string) (message : Message) :
  (forall history,
      active_conversations self !! conversation_id = Some history ->
      let self' := (add_to_conversation now self conversation_id message).1 in
      (add_to_conversation now self conversation_id message).2 = Ok ()
      /\ get_conversation_history self' conversation_id
         = Ok (history ++ [<["timestamp" := now]> message])
      /\ forall other, other <> conversation_id ->
           get_conversation_history self' other = get_conversation_history self other)
  /\ (active_conversations self !! conversation_id = None ->
      add_to_conversation now self conversation_id message
      = (self, Raise (not_found conversation_id))
      /\ get_conversation_history self conversation_id
         = Raise (not_found conversation_id)).
Proof.
  unfold add_to_conversation, get_conversation_history. split.
  - intros history ->. simpl. split; [reflexivity|]. split.
    + by rewrite lookup_insert_eq.
    + intros other Hne. by rewrite lookup_insert_ne.
  - intros ->. split; reflexivity.
Qed.

Lemma conversation_add_then_get_witness :
  get_conversation_history
    (add_to_conversation "noon"
       (start_conversation "20250101_120000" (MkInputOutputManager ∅)).1
       "conv_20250101_120000" {[ "text" := "hello"; "timestamp" := "never" ]}).1
    "conv_20250101_120000"
  = Ok ([] ++ [<["timestamp" := "noon"]> {[ "text" := "hello"; "timestamp" := "never" ]}]).
Proof.
  apply (proj1 (conversation_add_then_get "noon"
                  (start_conversation "20250101_120000" (MkInputOutputManager ∅)).1
                  "conv_20250101_120000" {[ "text" := "hello"; "timestamp" := "never" ]})
           []).
  reflexivity.
Defined.

(** X23: the id of a conversation is the clock reading to the second, and
    [start_conversation] registers it with an empty history whether or not
    it was registered before: a conversation started within the second of
    an earlier one takes its id and its history is lost. The other
    conversations are as they were. *)
Theorem start_conversation_resets (now : string) (self : InputOutputManager) :
  let started := start_conversation now self in
  started.2 = "conv_" +:+ now
  /\ get_conversation_history started.1 started.2 = Ok []
  /\ forall other, other <> started.2 ->
       get_conversation_history started.1 other = get_conversation_history self other.
Proof.
  unfold start_conversation, get_conversation_history. simpl.
  split; [reflexivity|]. split.
  - by rewrite lookup_insert_eq.
  - intros other Hne. by rewrite lookup_insert_ne.
Qed.

End Conversation_properties.

(** * Properties of the local side of [DataHub] *)

Section DataHub_properties.
Import DataBus.

(** X24: [_handle_message] keeps the history within its bound: a history
    of at most [max_history] messages stays so. Below the bound the message
    is added at the end; at the bound the oldest message is dropped to make
    room for it, so the message is the last of the history whenever the
    bound is above zero. The subscribers are not changed. *)
Theorem handle_message_bounds_history (self : DataHub) (message : DataBusMessage) :
  let self' := (_handle_message self message).1 in
  (length (message_history self) <= max_history self ->
   length (message_history self') <= max_history self')
  /\ (length (message_history self) < max_history self ->
      message_history self' = message_history self ++ [message])
  /\ (max_history self <= length (message_history self) ->
      message_history self' = drop 1 (message_history self ++ [message]))
  /\ (0 < max_history self -> last (message_history self') = Some message)
  /\ subscribers self' = subscribers self
  /\ max_history self' = max_history self.
Proof.
  unfold _handle_message. cbn [fst message_history subscribers max_history].
  rewrite length_app. cbn [length].
  destruct (Nat.ltb_spec (max_history self) (length (message_history self) + 1))
    as [Hfull|Hroom].
  - split; [intros Hle; rewrite length_drop, length_app; cbn [length]; lia|].
    split; [lia|]. split; [reflexivity|]. split; [|split; reflexivity].
    intros Hpos. destruct (message_history self) as [|m rest]; [simpl in Hfull; lia|].
    change (drop 1 ((m :: rest) ++ [message])) with (rest ++ [message]).
    apply last_snoc.
  - split; [intros _; rewrite length_app; cbn [length]; lia|].
    split; [reflexivity|]. split; [lia|]. split; [|split; reflexivity].
    intros _. apply last_snoc.
Qed.

Lemma handle_message_bounds_history_witness :
  message_history
    (_handle_message (MkDataHub ∅ [MkMessage "a" "t" "1" "x"; MkMessage "a" "t" "2" "y"] 2)
       (MkMessage "b" "t" "3" "z")).1
  = drop 1 ([MkMessage "a" "t" "1" "x"; MkMessage "a" "t" "2" "y"]
              ++ [MkMessage "b" "t" "3" "z"]).
Proof.
  apply (proj1 (proj2 (proj2 (handle_message_bounds_history
           (MkDataHub ∅ [MkMessage "a" "t" "1" "x"; MkMessage "a" "t" "2" "y"] 2)
           (MkMessage "b" "t" "3" "z"))))).
  simpl. lia.
Defined.

(** X25: a callback that subscribes to a message type is called for every
    later message of that type, once for each time it subscribed and after
    the callbacks that subscribed before it; for a message of another type
    the callbacks called are those that were called without it. *)
Theorem subscriber_is_notified (self : DataHub) (subscribed_type : string)
    (callback : Callback) (message : DataBusMessage) :
  (message_type message = subscribed_type ->
   (_handle_message (subscribe self subscribed_type callback) message).2
   = (_handle_message self message).2 ++ [(callback, message)])
  /\ (message_type message <> subscribed_type ->
      (_handle_message (subscribe self subscribed_type callback) message).2
      = (_handle_message self message).2).
Proof.
  unfold _handle_message, subscribe. cbn [snd subscribers]. split.
  - intros <-. rewrite lookup_insert_eq.
    destruct (subscribers self !! message_type message) as [callbacks|].
    + exact (fmap_app _ callbacks [callback]).
    + reflexivity.
  - intros Hne. by rewrite lookup_insert_ne.
Qed.

Lemma subscriber_is_notified_witness :
  (_handle_message (subscribe (MkDataHub {[ "alert" := [1] ]} [] 1000) "alert" 2)
     (MkMessage "system" "alert" "disk full" "noon")).2
  = (_handle_message (MkDataHub {[ "alert" := [1] ]} [] 1000)
       (MkMessage "system" "alert" "disk full" "noon")).2
    ++ [(2, MkMessage "system" "alert" "disk full" "noon")].
Proof.
  apply (proj1 (subscriber_is_notified (MkDataHub {[ "alert" := [1] ]} [] 1000) "alert" 2
                  (MkMessage "system" "alert" "disk full" "noon"))).
  reflexivity.
Defined.

Lemma list_remove_Some_iff (x : Callback) (l : list Callback) :
  is_Some (list_remove x l) <-> x ∈ l.
Proof.
  induction l as [|y rest IH]; simpl.
  - split; [intros [? [=]] | intros H; by apply not_elem_of_nil in H].
  - destruct (decide (y = x)) as [->|Hne].
    + split; [intros _; by left | eauto].
    + destruct (list_remove x rest) as [rest'|].
      * split; [intros _; right; apply IH; eauto | eauto].
      * split; [intros [? [=]]|].
        intros [Heq|Hin]%elem_of_cons; [congruence|].
        apply IH in Hin as [? [=]].
Qed.

Lemma list_remove_length (x : Callback) (l l' : list Callback) :
  list_remove x l = Some l' -> length l = S (length l').
Proof.
  revert l'. induction l as [|y rest IH]; intros l'; simpl; [discriminate|].
  destruct (decide (y = x)); [by intros [= <-]|].
  destruct (list_remove x rest) as [rest'|]; [|discriminate].
  intros [= <-]. simpl. f_equal. by apply IH.
Qed.

Lemma list_remove_fresh (x : Callback) (l : list Callback) :
  x ∉ l -> list_remove x (l ++ [x]) = Some l.
Proof.
  induction l as [|y rest IH]; intros Hfresh; simpl.
  - by rewrite decide_True.
  - apply not_elem_of_cons in Hfresh as [Hne Hrest].
    rewrite decide_False by congruence. by rewrite IH.
Qed.

Lemma list_remove_first (x : Callback) (l l' : list Callback) :
  list_remove x l = Some l' ->
  exists before after, l = before ++ x :: after /\ (x ∉ before) /\ l' = before ++ after.
Proof.
  revert l'. induction l as [|y rest IH]; intros l'; simpl; [discriminate|].
  destruct (decide (y = x)) as [->|Hne].
  - intros [= <-]. exists [], rest. split; [reflexivity|].
    split; [apply not_elem_of_nil | reflexivity].
  - destruct (list_remove x rest) as [rest'|]; [|discriminate].
    intros [= <-]. destruct (IH rest' eq_refl) as (before & after & -> & Hfresh & ->).
    exists (y :: before), after. split; [reflexivity|]. split; [|reflexivity].
    apply not_elem_of_cons. split; [congruence | exact Hfresh].
Qed.

(** X26: [unsubscribe] returns [True] exactly when the callback is
    subscribed to the message type, and then takes away the first of its
    subscriptions to that type and nothing else: the callbacks before it and
    those after it, later subscriptions of the same callback among them,
    stay in their order, and the other message types, the history and its
    bound are as they were. When it returns [False] the hub is as it
    was. *)
Theorem unsubscribe_answer (self : DataHub) (subscribed_type : string)
    (callback : Callback) :
  let run := unsubscribe self subscribed_type callback in
  (run.2 = true <->
   exists callbacks, subscribers self !! subscribed_type = Some callbacks
                     /\ callback ∈ callbacks)
  /\ (run.2 = false -> run.1 = self)
  /\ (run.2 = true ->
      exists before after,
        subscribers self !! subscribed_type = Some (before ++ callback :: after)
        /\ (callback ∉ before)
        /\ subscribers run.1 !! subscribed_type = Some (before ++ after)
        /\ (forall other, other <> subscribed_type ->
              subscribers run.1 !! other = subscribers self !! other)
        /\ message_history run.1 = message_history self
        /\ max_history run.1 = max_history self).
Proof.
  unfold unsubscribe.
  destruct (subscribers self !! subscribed_type) as [callbacks|] eqn:Hsub.
  - destruct (list_remove callback callbacks) as [callbacks'|] eqn:Hrem; simpl.
    + split; [|split; [discriminate|]].
      * split; [|reflexivity]. intros _. exists callbacks. split; [reflexivity|].
        apply list_remove_Some_iff. eauto.
      * intros _.
        destruct (list_remove_first _ _ _ Hrem) as (before & after & -> & Hfresh & ->).
        exists before, after. split; [reflexivity|]. split; [exact Hfresh|].
        split; [apply lookup_insert_eq|].
        split; [|split; reflexivity].
        intros other Hne. by rewrite lookup_insert_ne.
    + split; [|split; [reflexivity | discriminate]].
      split; [discriminate|]. intros (l & [= <-] & Hin).
      apply list_remove_Some_iff in Hin as [? Hin]. congruence.
  - simpl. split; [|split; [reflexivity | discriminate]].
    split; [discriminate | intros (l & [=] & _)].
Qed.

(** X27: subscribing a callback that is not yet subscribed to a message
    type and unsubscribing it again leaves the hub calling, for every
    message, the callbacks it called before, in the same order. *)
Theorem subscribe_then_unsubscribe (self : DataHub) (subscribed_type : string)
    (callback : Callback) (message : DataBusMessage) :
  callback ∉ default [] (subscribers self !! subscribed_type) ->
  let run := unsubscribe (subscribe self subscribed_type callback)
               subscribed_type callback in
  run.2 = true
  /\ (_handle_message run.1 message).2 = (_handle_message self message).2
  /\ message_history run.1 = message_history self.
Proof.
  intros Hfresh. unfold unsubscribe, subscribe. simpl.
  rewrite lookup_insert_eq, (list_remove_fresh _ _ Hfresh). simpl.
  split; [reflexivity|]. split; [|reflexivity].
  unfold _handle_message. simpl. rewrite insert_insert_eq.
  destruct (decide (message_type message = subscribed_type)) as [->|Hne].
  - rewrite lookup_insert_eq.
    by destruct (subscribers self !! subscribed_type).
  - by rewrite lookup_insert_ne.
Qed.

Lemma subscribe_then_unsubscribe_witness :
  (_handle_message
     (unsubscribe (subscribe (MkDataHub {[ "alert" := [1] ]} [] 1000) "alert" 2)
        "alert" 2).1
     (MkMessage "system" "alert" "disk full" "noon")).2
  = (_handle_message (MkDataHub {[ "alert" := [1] ]} [] 1000)
       (MkMessage "system" "alert" "disk full" "noon")).2.
Proof.
  apply (subscribe_then_unsubscribe (MkDataHub {[ "alert" := [1] ]} [] 1000) "alert" 2
           (MkMessage "system" "alert" "disk full" "noon")).
  intros [Heq|Hin]%elem_of_cons; [discriminate | by apply not_elem_of_nil in Hin].
Defined.

(** X28: [get_message_history] returns messages of the history only, all of
    the type asked for when a type with at least one character is given,
    and no more than the limit when a limit above zero is given. An empty
    type filters nothing and a limit of zero limits nothing: both return
    what is returned without them. *)
Theorem message_history_filter_and_limit (self : DataHub) (wanted : option string)
    (limit : option Z) :
  (forall m, m ∈ get_message_history self wanted limit ->
     m ∈ message_history self
     /\ forall t, wanted = Some t -> Shlex.nonempty t = true -> message_type m = t)
  /\ (forall n, limit = Some n -> (0 < n)%Z ->
        length (get_message_history self wanted limit) <= Z.to_nat n)
  /\ get_message_history self (Some "") limit = get_message_history self None limit
  /\ get_message_history self wanted (Some 0%Z) = get_message_history self wanted None.
Proof.
  split; [|split; [|split; reflexivity]].
  - intros m Hm. unfold get_message_history in Hm.
    set (messages := match wanted with
                     | Some t => if Shlex.nonempty t
                                 then filter (fun m => message_type m = t)
                                        (message_history self)
                                 else message_history self
                     | None => message_history self
                     end) in Hm.
    assert (Hin : m ∈ messages).
    { destruct limit as [n|]; [|exact Hm].
      destruct (Z.eqb n 0); [exact Hm|].
      unfold Pylist.slice_from in Hm. by eapply subseteq_drop. }
    clear Hm. subst messages. destruct wanted as [t|].
    + destruct (Shlex.nonempty t) eqn:Ht.
      * apply list_elem_of_filter in Hin as [Htype Hin].
        split; [exact Hin|]. by intros t' [= <-] _.
      * split; [exact Hin|]. intros t' [= <-] Hne. congruence.
    + split; [exact Hin | discriminate].
  - intros n -> Hpos. unfold get_message_history.
    destruct (Z.eqb_spec n 0) as [->|_]; [lia|].
    unfold Pylist.slice_from, Pylist.slice_start.
    destruct (Z.ltb_spec (- n) 0) as [_|Hge]; [|lia].
    rewrite length_drop. lia.
Qed.

End DataHub_properties.
